(** * utils_maintenance/autopep8_format_paths.py

    A shallow embedding of the autopep8 driver script and the properties of
    its path resolution, version detection and file filtering.

    Python [str] and [bytes] values are both [string]: a sequence of
    characters with code points below 256 (for [bytes], the bytes
    themselves).  The file system, the host's path separator and the
    processes the script starts are the fields of a [Host]; paths are
    relative to the directory that the module changes to when it is
    loaded.  A run starts from the arguments that [argparse] has parsed
    ([Args]); it threads the global [AUTOPEP8_FORMAT_CMD] and records, in
    order, the lines printed and the command lines executed. *)

From Stdlib Require Import ZArith Lia Ascii DecimalString DecimalPos.
From stdpp Require Import base list strings gmap.

Local Open Scope Z_scope.

(** ** Python string primitives *)

Module Py.

Definition code (c : ascii) : N := N_of_ascii c.

(** [str.isspace] on one character, for code points below 256. *)
Definition isspace (c : ascii) : bool :=
  let n := code c in
  ((9 <=? n) && (n <=? 13) || (28 <=? n) && (n <=? 32)
   || (n =? 133) || (n =? 160))%N.

(** The decimal digits ['0'..'9']. *)
Definition isdecimal (c : ascii) : bool :=
  let n := code c in ((48 <=? n) && (n <=? 57))%N.

(** [str.isdigit] on one character: the decimal digits and the
    superscripts U+00B2, U+00B3 and U+00B9. *)
Definition isdigit (c : ascii) : bool :=
  let n := code c in
  (isdecimal c || (n =? 178) || (n =? 179) || (n =? 185))%N.

(** Fields of [s] between the characters that satisfy [p]: one more field
    than there are separators, empty fields included. *)
Fixpoint fields (p : ascii -> bool) (s : string) : list string :=
  match s with
  | EmptyString => [EmptyString]
  | String c s' =>
      if p c then EmptyString :: fields p s'
      else match fields p s' with
           | w :: ws => String c w :: ws
           | [] => [String c EmptyString]
           end
  end.

(** [bool(l)] for a list. *)
Definition bool_of_list {A} (l : list A) : bool :=
  match l with [] => false | _ :: _ => true end.

Definition nonempty (s : string) : bool :=
  match s with EmptyString => false | String _ _ => true end.

(** [s.split()]: maximal runs of characters that are not whitespace. *)
Definition split_whitespace (s : string) : list string :=
  List.filter nonempty (fields isspace s).

(** [s.split(sep)] for a separator of one character; also
    [bytes.split] for a separator of one byte. *)
Definition split (sep : ascii) (s : string) : list string :=
  fields (Ascii.eqb sep) s.

(** [s.isascii()]: every code point is below 128. *)
Fixpoint isascii (s : string) : bool :=
  match s with
  | EmptyString => true
  | String c s' => (code c <? 128)%N && isascii s'
  end.

(** [s.endswith(suffix)] *)
Fixpoint endswith (s suffix : string) : bool :=
  match s with
  | EmptyString => String.eqb suffix EmptyString
  | String _ s' => String.eqb s suffix || endswith s' suffix
  end.

(** [s.endswith(suffixes)] for a tuple of suffixes. *)
Definition endswith_any (s : string) (suffixes : list string) : bool :=
  existsb (endswith s) suffixes.

(** [s.replace(old, new)] for [old] of one character. *)
Fixpoint replace (old : ascii) (new : string) (s : string) : string :=
  match s with
  | EmptyString => EmptyString
  | String c s' =>
      if Ascii.eqb c old then new +:+ replace old new s'
      else String c (replace old new s')
  end.

(** The whitespace that [int] strips from both ends: tab to carriage
    return, the space and, in a string that is not ASCII, U+0085 and
    U+00A0; not U+001C to U+001F, which [str.isspace] accepts. *)
Definition isspace_int (c : ascii) : bool :=
  let n := code c in
  ((9 <=? n) && (n <=? 13) || (n =? 32) || (n =? 133) || (n =? 160))%N.

Fixpoint lstrip (p : ascii -> bool) (s : string) : string :=
  match s with
  | EmptyString => EmptyString
  | String c s' => if p c then lstrip p s' else s
  end.

(** The string without its trailing characters that satisfy [p]: [None]
    stands for a string of such characters only. *)
Fixpoint rstrip_go (p : ascii -> bool) (s : string) : option string :=
  match s with
  | EmptyString => None
  | String c s' =>
      match rstrip_go p s' with
      | Some r => Some (String c r)
      | None => if p c then None else Some (String c EmptyString)
      end
  end.

Definition strip (p : ascii -> bool) (s : string) : string :=
  default EmptyString (rstrip_go p (lstrip p s)).

(** Digits of an integer literal: decimal digits, single underscores
    allowed between two digits only. *)
Fixpoint int_digits (acc : Z) (after_digit : bool) (s : string) : option Z :=
  match s with
  | EmptyString => if after_digit then Some acc else None
  | String c s' =>
      if Ascii.eqb c "_" then
        if after_digit then int_digits acc false s' else None
      else if isdecimal c then
        int_digits (10 * acc + (Z.of_N (code c) - 48)) true s'
      else None
  end.

(** The number of decimal digits in [s]. *)
Fixpoint digit_count (s : string) : N :=
  match s with
  | EmptyString => 0%N
  | String c s' => if isdecimal c then N.succ (digit_count s') else digit_count s'
  end.

(** [sys.int_info.default_max_str_digits]: the most digits that [int]
    converts, by default. *)
Definition int_max_str_digits : N := 4300.

(** The literal after the sign. *)
Definition int_unsigned (d : string) : option Z :=
  if (int_max_str_digits <? digit_count d)%N then None
  else int_digits 0 false d.

(** [int(s)]: surrounding whitespace stripped, an optional sign, then the
    digits, no more than [int_max_str_digits] of them; [None] is
    [ValueError]. *)
Definition int (s : string) : option Z :=
  match strip isspace_int s with
  | String "+" d => int_unsigned d
  | String "-" d => Z.opp <$> int_unsigned d
  | d => int_unsigned d
  end.

(** ["%d" % n] *)
Definition fmt_d (n : Z) : string := NilEmpty.string_of_int (Z.to_int n).

Definition join (sep : string) (l : list string) : string :=
  match l with
  | [] => EmptyString
  | x :: xs => x +:+ String.concat EmptyString (List.map (String.append sep) xs)
  end.

(** [repr] of a tuple of integers: ["(1, 6, 0)"], and ["(1,)"] for one
    element. *)
Definition repr_tuple (t : list Z) : string :=
  match t with
  | [n] => "(" +:+ fmt_d n +:+ ",)"
  | _ => "(" +:+ join ", " (fmt_d <$> t) +:+ ")"
  end.

(** Order of tuples of integers: the first difference decides, a proper
    prefix is smaller. *)
Fixpoint tuple_lt (a b : list Z) : bool :=
  match a, b with
  | [], [] => false
  | [], _ :: _ => true
  | _ :: _, [] => false
  | x :: a', y :: b' => (x <? y) || (x =? y) && tuple_lt a' b'
  end.

Definition tuple_gt (a b : list Z) : bool := tuple_lt b a.

End Py.

(** ** Effects: exceptions, the exit status, the trace and the global *)

Inductive exn : Set :=
| FileNotFoundError
| CalledProcessError
| OSError
| UnicodeDecodeError
| ValueError
| IndexError
| AttributeError.

(** The three places where the script calls [subprocess.check_output]. *)
Inductive call_site : Set :=
| VersionQuery   (* autopep8_ensure_version: <cmd> --version *)
| GitQuery       (* source_files_from_git *)
| Format.        (* autopep8_format *)

(** What a run does that can be seen from outside, in order: the lines it
    prints (without the newline) and the command lines it executes. *)
Inductive event : Set :=
| Print (line : string)
| Run (site : call_site) (argv : list string).

Record state : Set := mkState {
  AUTOPEP8_FORMAT_CMD : string;   (* the module-level global *)
  trace : list event
}.

Definition initial_state : state :=
  {| AUTOPEP8_FORMAT_CMD := "autopep8"; trace := [] |}.

(** How a computation ends: with a value, in [sys.exit(code)], or in an
    exception that nothing catches. *)
Inductive result (A : Type) : Type :=
| Ret (a : A)
| Exit (code : Z)
| Raise (e : exn).
Arguments Ret {A} a.
Arguments Exit {A} code.
Arguments Raise {A} e.

Definition M (A : Type) : Type := state -> result A * state.

Definition ret {A} (a : A) : M A := fun s => (Ret a, s).

Definition bind {A B} (m : M A) (k : A -> M B) : M B :=
  fun s =>
    match m s with
    | (Ret a, s') => k a s'
    | (Exit c, s') => (Exit c, s')
    | (Raise e, s') => (Raise e, s')
    end.

Declare Scope py_scope.
Delimit Scope py_scope with py.
Notation "x <- c ;; k" := (bind c (fun x => k))
  (at level 100, c at next level, right associativity) : py_scope.
Notation "c ;;; k" := (bind c (fun _ => k))
  (at level 100, right associativity) : py_scope.
Local Open Scope py_scope.

Definition raise {A} (e : exn) : M A := fun s => (Raise e, s).
Definition sys_exit {A} (code : Z) : M A := fun s => (Exit code, s).

(** The state after the events [evs]. *)
Definition log (s : state) (evs : list event) : state :=
  {| AUTOPEP8_FORMAT_CMD := AUTOPEP8_FORMAT_CMD s; trace := trace s ++ evs |}.

Definition emit (e : event) : M unit := fun s => (Ret tt, log s [e]).

Definition print (line : string) : M unit := emit (Print line).

Definition get_AUTOPEP8_FORMAT_CMD : M string :=
  fun s => (Ret (AUTOPEP8_FORMAT_CMD s), s).

Definition set_AUTOPEP8_FORMAT_CMD (cmd : string) : M unit :=
  fun s => (Ret tt, {| AUTOPEP8_FORMAT_CMD := cmd; trace := trace s |}).

Definition lift {A} (r : exn + A) : M A :=
  match r with inl e => raise e | inr a => ret a end.

Fixpoint for_each {A} (body : A -> M unit) (l : list A) : M unit :=
  match l with
  | [] => ret tt
  | x :: l' => body x ;;; for_each body l'
  end.

(** The exit status of the process: 0 when [main] returns, the argument of
    [sys.exit], and 1 after an exception that nothing catches. *)
Definition exit_status {A} (r : result A) : Z :=
  match r with
  | Ret _ => 0
  | Exit code => code
  | Raise _ => 1
  end.

(** ** The host *)

Record Host : Type := mkHost {
  os_sep : string;
  sys_executable : string;
  os_path_exists : string -> bool;
  os_path_isfile : string -> bool;
  (** [subprocess.check_output(argv)]: the bytes of the standard output, or
      the exception raised. *)
  subprocess_check_output : list string -> exn + string;
  (** [bytes.decode('utf-8')]: the text, or the exception raised. *)
  decode_utf8 : string -> exn + string
}.

(** What [argparse_create().parse_args()] returns. *)
Record Args : Set := mkArgs {
  changed_only : bool;
  autopep8_command : string;
  paths : list string
}.

Definition check_output (h : Host) (site : call_site) (argv : list string)
  : M string :=
  emit (Run site argv) ;;; lift (subprocess_check_output h argv).

(** [b.decode('ascii')] *)
Definition decode_ascii (b : string) : exn + string :=
  if Py.isascii b then inr b else inl UnicodeDecodeError.

(** ** The script *)

Definition VERSION_MIN : list Z := [1; 6; 0].
Definition VERSION_MAX_RECOMMENDED : list Z := [1; 6; 0].

Definition extensions : list string := [".py"].

Definition ignore_files : gset string :=
  {[ "release/scripts/modules/rna_manual_reference.py" ]}.

Definition default_paths : list string :=
  ["build_files"; "release"; "doc"; "source"; "tests"].

(** The comprehension of [compute_paths]: the arguments that are not an
    existing file, or end in one of [extensions]. *)
Definition keep_path (h : Host) (f : string) : bool :=
  negb (os_path_isfile h f) || Py.endswith_any f extensions.

(** [if os.sep != "/": paths = [f.replace("/", os.sep) for f in paths]] *)
Definition normalize_separators (h : Host) (paths : list string) : list string :=
  if negb (String.eqb (os_sep h) "/")
  then List.map (Py.replace "/" (os_sep h)) paths
  else paths.

Definition compute_paths (h : Host) (paths : list string)
    (use_default_paths : bool) : list string :=
  let paths :=
    if use_default_paths then default_paths
    else List.filter (keep_path h) paths in
  normalize_separators h paths.

Fixpoint decode_each (files : list string) : exn + list string :=
  match files with
  | [] => inr []
  | f :: rest =>
      match decode_ascii f with
      | inl e => inl e
      | inr s =>
          match decode_each rest with
          | inl e => inl e
          | inr l => inr (s :: l)
          end
      end
  end.

(** The command line of [source_files_from_git]. *)
Definition git_command (paths : list string) (changed_only : bool)
  : list string :=
  if changed_only
  then ["git"; "diff"; "HEAD"; "--name-only"; "-z"; "--"] ++ paths
  else ["git"; "ls-tree"; "-r"; "HEAD"] ++ paths ++ ["--name-only"; "-z"].

Definition source_files_from_git (h : Host) (paths : list string)
    (changed_only : bool) : M (list string) :=
  let cmd := git_command paths changed_only in
  out <- check_output h GitQuery cmd ;;
  let files := Py.split "000" out in
  lift (decode_each files).

(** [next(iter(v for v in tokens if v[0].isdigit()), None)] *)
Fixpoint first_digit_token (tokens : list string) : exn + option string :=
  match tokens with
  | [] => inr None
  | v :: rest =>
      match v with
      | EmptyString => inl IndexError
      | String c _ => if Py.isdigit c then inr (Some v) else first_digit_token rest
      end
  end.

(** [tuple(int(n) for n in parts)] *)
Fixpoint int_each (parts : list string) : exn + list Z :=
  match parts with
  | [] => inr []
  | n :: rest =>
      match Py.int n with
      | None => inl ValueError
      | Some z =>
          match int_each rest with
          | inl e => inl e
          | inr t => inr (z :: t)
          end
      end
  end.

(** Lines 81 to 84 of [autopep8_ensure_version]: the version tuple read from
    the text that [--version] printed. *)
Definition parse_version (version_output : string) : exn + option (list Z) :=
  match first_digit_token (Py.split_whitespace version_output) with
  | inl e => inl e
  | inr None => inr None
  | inr (Some version) =>
      match Py.split "-" version with
      | [] => inl IndexError
      | version :: _ =>
          match int_each (Py.split "." version) with
          | inl e => inl e
          | inr t => inr (Some t)
          end
      end
  end.

(** The loop of [autopep8_ensure_version] over [is_default]; it yields
    [version_output], [None] when no candidate could be run. *)
Fixpoint version_output_loop (h : Host) (autopep8_format_cmd_argument : string)
    (flags : list bool) : M (option string) :=
  match flags with
  | [] => ret None
  | is_default :: rest =>
      let autopep8_format_cmd :=
        if is_default then autopep8_format_cmd_argument else "autopep8" in
      if is_default
         && negb (Py.nonempty autopep8_format_cmd
                  && os_path_exists h autopep8_format_cmd)
      then version_output_loop h autopep8_format_cmd_argument rest
      else
        let cmd := [autopep8_format_cmd] in
        let cmd :=
          if Py.endswith autopep8_format_cmd ".py"
          then sys_executable h :: cmd else cmd in
        let argv := cmd ++ ["--version"] in
        emit (Run VersionQuery argv) ;;;
        match
          match subprocess_check_output h argv with
          | inl e => inl e
          | inr out => decode_utf8 h out
          end
        with
        | inl FileNotFoundError =>
            version_output_loop h autopep8_format_cmd_argument rest
        | inl e => raise e
        | inr version_output =>
            set_AUTOPEP8_FORMAT_CMD autopep8_format_cmd ;;;
            ret (Some version_output)
        end
  end.

Definition index (t : list Z) (i : nat) : M Z :=
  match nth_error t i with
  | Some z => ret z
  | None => raise IndexError
  end.

Definition autopep8_ensure_version (h : Host)
    (autopep8_format_cmd_argument : string) : M (option (list Z)) :=
  version_output <-
    version_output_loop h autopep8_format_cmd_argument [true; false] ;;
  match version_output with
  | None => raise AttributeError   (* None.split() *)
  | Some version_output =>
      version <- lift (parse_version version_output) ;;
      match version with
      | None => ret None
      | Some t =>
          cmd <- get_AUTOPEP8_FORMAT_CMD ;;
          v0 <- index t 0 ;;
          v1 <- index t 1 ;;
          v2 <- index t 2 ;;
          print ("Using " +:+ cmd +:+ " (" +:+ Py.fmt_d v0 +:+ "."
                 +:+ Py.fmt_d v1 +:+ "." +:+ Py.fmt_d v2 +:+ ")...") ;;;
          ret (Some t)
      end
  end.

(** The command line of [autopep8_format], for the value [format_cmd] of
    the global [AUTOPEP8_FORMAT_CMD]. *)
Definition format_command (h : Host) (format_cmd : string)
    (files : list string) : list string :=
  let cmd := [format_cmd; "--recursive"; "--in-place"; "--jobs=0"] ++ files in
  if Py.endswith format_cmd ".py" then sys_executable h :: cmd else cmd.

Definition autopep8_format (h : Host) (files : list string) : M string :=
  format_cmd <- get_AUTOPEP8_FORMAT_CMD ;;
  check_output h Format (format_command h format_cmd files).

(** The two conditions of the comprehension in [main]. *)
Definition keep_file (f : string) : bool :=
  Py.endswith_any f extensions && negb (bool_decide (f ∈ ignore_files)).

Definition main (h : Host) (args : Args) : M unit :=
  version <- autopep8_ensure_version h (autopep8_command args) ;;
  match version with
  | None => print "Unable to detect 'autopep8 --version'" ;;; sys_exit 1
  | Some version =>
      (if Py.tuple_lt version VERSION_MIN
       then print ("Version of autopep8 is too old: " +:+ Py.repr_tuple version
                   +:+ " < " +:+ Py.repr_tuple VERSION_MIN) ;;;
            sys_exit 1
       else ret tt) ;;;
      (if Py.tuple_gt version VERSION_MAX_RECOMMENDED
       then print ("WARNING: Version of autopep8 is too recent: "
                   +:+ Py.repr_tuple version +:+ " > "
                   +:+ Py.repr_tuple VERSION_MAX_RECOMMENDED) ;;;
            print ("You may want to install autopep8-1.6, "
                   +:+ "or use the precompiled libs repository.")
       else ret tt) ;;;
      let use_default_paths :=
        negb (Py.bool_of_list (paths args) || changed_only args) in
      let paths := compute_paths h (paths args) use_default_paths in
      print ("Operating on:"
             +:+ (if changed_only args
                  then " (" +:+ Py.fmt_d (Z.of_nat (length paths))
                       +:+ " changed paths)"
                  else "")) ;;;
      for_each (fun p => print ("  " +:+ p)) paths ;;;
      listed <- source_files_from_git h paths (changed_only args) ;;
      let files := List.filter keep_file listed in
      match files with
      | [] => ret tt
      | _ :: _ => autopep8_format h files ;;; ret tt
      end
  end.

Definition run (h : Host) (args : Args) : result unit * state :=
  main h args initial_state.

(** ** Notions used in the statements *)

(** The version that [autopep8_ensure_version] returns to [main]. *)
Definition detected (h : Host) (args : Args) (version : list Z) : Prop :=
  fst (autopep8_ensure_version h (autopep8_command args) initial_state)
  = Ret (Some version).

(** The paths that [main] prints and hands to [source_files_from_git]. *)
Definition resolved_paths (h : Host) (args : Args) : list string :=
  compute_paths h (paths args)
    (negb (Py.bool_of_list (paths args) || changed_only args)).

(** The list that [source_files_from_git] returns to [main]. *)
Definition listed (h : Host) (args : Args) (files : list string) : Prop :=
  fst (source_files_from_git h (resolved_paths h args) (changed_only args)
         initial_state)
  = Ret files.

(** The events of a run of [main]. *)
Definition events (h : Host) (args : Args) : list event :=
  trace (snd (run h args)).

Definition formatter_invoked (h : Host) (args : Args) : Prop :=
  exists argv, In (Run Format argv) (events h args).

Definition not_format (e : event) : Prop :=
  match e with Run Format _ => False | _ => True end.

Definition is_print (e : event) : Prop :=
  match e with Print _ => True | _ => False end.

(** Every event that [m] adds to the trace satisfies [P]. *)
Definition emits {A} (P : event -> Prop) (m : M A) : Prop :=
  forall s r s', m s = (r, s') ->
    exists evs, trace s' = trace s ++ evs /\ Forall P evs.

(** The lines printed after a version above the recommended maximum. *)
Definition warning_events (version : list Z) : list event :=
  if Py.tuple_gt version VERSION_MAX_RECOMMENDED
  then [Print ("WARNING: Version of autopep8 is too recent: "
               +:+ Py.repr_tuple version +:+ " > "
               +:+ Py.repr_tuple VERSION_MAX_RECOMMENDED);
        Print ("You may want to install autopep8-1.6, "
               +:+ "or use the precompiled libs repository.")]
  else [].

(** The lines that announce the resolved paths. *)
Definition announce_events (h : Host) (args : Args) : list event :=
  Print ("Operating on:"
         +:+ (if changed_only args
              then " (" +:+ Py.fmt_d (Z.of_nat (length (resolved_paths h args)))
                   +:+ " changed paths)"
              else ""))
  :: List.map (fun p => Print ("  " +:+ p)) (resolved_paths h args).

(** Lines 166 to 176 of [main]: the query, the filter and the formatter. *)
Definition format_stage (h : Host) (args : Args) : M unit :=
  listed <- source_files_from_git h (resolved_paths h args) (changed_only args) ;;
  let files := List.filter keep_file listed in
  match files with
  | [] => ret tt
  | _ :: _ => autopep8_format h files ;;; ret tt
  end.

(** No character of [s] satisfies [p]. *)
Definition free_of (p : ascii -> bool) (s : string) : bool :=
  forallb (fun c => negb (p c)) (String.list_ascii_of_string s).

(** The first character of [s] is a digit. *)
Definition leading_digit (s : string) : bool :=
  match s with
  | EmptyString => false
  | String c _ => Py.isdigit c
  end.

(** A token of [split()]: not empty, no whitespace in it. *)
Definition is_token (s : string) : bool :=
  Py.nonempty s && free_of Py.isspace s.

(** ** Hosts and arguments used as examples *)

(** A host with separator [/], no file on disk, [autopep8] on the search
    path printing [version_output], and git printing [git_output]. *)
Definition posix_host (version_output git_output : string) : Host := {|
  os_sep := "/";
  sys_executable := "/usr/bin/python3";
  os_path_exists := fun _ => false;
  os_path_isfile := fun _ => false;
  subprocess_check_output := fun argv =>
    match argv with
    | ["autopep8"; "--version"] => inr version_output
    | "git" :: _ => inr git_output
    | _ => inr EmptyString
    end;
  decode_utf8 := inr
|}.

(** A host with separator [\] on which [x.c] and [c.py] are files. *)
Definition windows_host : Host := {|
  os_sep := "\";
  sys_executable := "python.exe";
  os_path_exists := fun f => String.eqb f "x.c" || String.eqb f "c.py";
  os_path_isfile := fun f => String.eqb f "x.c" || String.eqb f "c.py";
  subprocess_check_output := fun _ => inl FileNotFoundError;
  decode_utf8 := inr
|}.

(** A host on which no formatter can be started. *)
Definition bare_host : Host := {|
  os_sep := "/";
  sys_executable := "/usr/bin/python3";
  os_path_exists := fun _ => false;
  os_path_isfile := fun _ => false;
  subprocess_check_output := fun _ => inl FileNotFoundError;
  decode_utf8 := inr
|}.

Definition no_arguments : Args :=
  {| changed_only := false; autopep8_command := "autopep8"; paths := [] |}.

Definition NUL : string := String "000" EmptyString.

(** Three entries, each ended by NUL as [-z] prints them. *)
Definition sample_listing : string :=
  "a.py" +:+ NUL +:+ "b.c" +:+ NUL
  +:+ "release/scripts/modules/rna_manual_reference.py" +:+ NUL.

(** ** Notions used in the further properties *)

(** The start of a command line for [cmd]: behind the interpreter when
    [cmd] ends in [.py], as both [autopep8_ensure_version] and
    [autopep8_format] build it. *)
Definition command_prefix (h : Host) (cmd : string) : list string :=
  if Py.endswith cmd ".py" then [sys_executable h; cmd] else [cmd].

(** What git prints under [-z] for [names]: each name followed by NUL. *)
Fixpoint zlist (names : list string) : string :=
  match names with
  | [] => EmptyString
  | n :: rest => n +:+ NUL +:+ zlist rest
  end.

(** A name that git can print under [-z] and that decodes as ASCII. *)
Definition plain_name (n : string) : bool :=
  Py.isascii n && free_of (Ascii.eqb "000") n.

(** Numbers in decimal, joined by dots. *)
Fixpoint dotted (ns : list Z) : string :=
  match ns with
  | [] => EmptyString
  | n :: rest =>
      match rest with
      | [] => Py.fmt_d n
      | _ :: _ => Py.fmt_d n +:+ "." +:+ dotted rest
      end
  end.

(** [s] is empty or starts with whitespace. *)
Definition starts_blank (s : string) : bool :=
  match s with
  | EmptyString => true
  | String c _ => Py.isspace c
  end.

(** No line that starts with [W]. *)
Definition not_W_line (e : event) : Prop :=
  forall rest, e <> Print (String "W" rest).

Definition is_query (e : event) : Prop :=
  match e with Run VersionQuery _ => True | _ => False end.

Definition not_git_nor_format (e : event) : Prop :=
  match e with Run GitQuery _ | Run Format _ => False | _ => True end.

(** ** Strings *)

Lemma fields_not_nil p s : Py.fields p s <> [].
Proof.
  destruct s as [|c s]; simpl; [discriminate|].
  destruct (p c); [discriminate|].
  destruct (Py.fields p s); discriminate.
Qed.

Lemma endswith_nonempty f suffix :
  Py.nonempty suffix = true -> Py.endswith f suffix = true -> f <> EmptyString.
Proof.
  intros Hs He ->. destruct suffix; simpl in *; discriminate.
Qed.

Lemma endswith_any_extensions f :
  Py.endswith_any f extensions = Py.endswith f ".py".
Proof. unfold Py.endswith_any, extensions. simpl. apply orb_false_r. Qed.

Lemma keep_file_spec f :
  keep_file f = true <->
  Py.endswith f ".py" = true /\ f ∉ ignore_files.
Proof.
  unfold keep_file. rewrite endswith_any_extensions, andb_true_iff.
  rewrite negb_true_iff, bool_decide_eq_false. reflexivity.
Qed.

(** A prefix free of separators stays in front of the first field. *)
Lemma fields_app_clean p t s :
  forallb (fun c => negb (p c)) (String.list_ascii_of_string t) = true ->
  Py.fields p (t +:+ s)
  = (t +:+ hd EmptyString (Py.fields p s)) :: tl (Py.fields p s).
Proof.
  induction t as [|c t IH]; simpl; intros H.
  - change (EmptyString +:+ s) with s.
    destruct (Py.fields p s) eqn:E; [|reflexivity].
    now apply fields_not_nil in E.
  - apply andb_true_iff in H as [Hc Ht].
    apply negb_true_iff in Hc. rewrite Hc, (IH Ht). reflexivity.
Qed.

Lemma fields_clean p t :
  forallb (fun c => negb (p c)) (String.list_ascii_of_string t) = true ->
  Py.fields p t = [t].
Proof.
  induction t as [|c t IH]; simpl; intros H; [reflexivity|].
  apply andb_true_iff in H as [Hc Ht].
  apply negb_true_iff in Hc. rewrite Hc, (IH Ht). reflexivity.
Qed.

(** ** The trace of a computation *)

Lemma log_nil s : log s [] = s.
Proof. destruct s. unfold log. simpl. now rewrite app_nil_r. Qed.

Lemma log_log s evs evs' : log (log s evs) evs' = log s (evs ++ evs').
Proof. unfold log. simpl. now rewrite app_assoc. Qed.

Lemma bind_Ret {A B} (m : M A) (k : A -> M B) s a s' :
  m s = (Ret a, s') -> bind m k s = k a s'.
Proof. unfold bind. now intros ->. Qed.

Lemma bind_Exit {A B} (m : M A) (k : A -> M B) s c s' :
  m s = (Exit c, s') -> bind m k s = (Exit c, s').
Proof. unfold bind. now intros ->. Qed.

Lemma bind_Raise {A B} (m : M A) (k : A -> M B) s e s' :
  m s = (Raise e, s') -> bind m k s = (Raise e, s').
Proof. unfold bind. now intros ->. Qed.

Lemma for_each_print (f : string -> string) l s :
  for_each (fun p => print (f p)) l s
  = (Ret tt, log s (List.map (fun p => Print (f p)) l)).
Proof.
  revert s. induction l as [|x l IH]; intros s; simpl.
  - unfold ret. now rewrite log_nil.
  - unfold bind, print, emit. rewrite IH, log_log. reflexivity.
Qed.

Lemma bind_ret {A B} (a : A) (k : A -> M B) s : bind (ret a) k s = k a s.
Proof. reflexivity. Qed.

Lemma bind_print {B} line (k : unit -> M B) s :
  bind (print line) k s = k tt (log s [Print line]).
Proof. reflexivity. Qed.

Lemma bind_bind {A B C} (m : M A) (k : A -> M B) (k' : B -> M C) s :
  bind (bind m k) k' s = bind m (fun a => bind (k a) k') s.
Proof. unfold bind. destruct (m s) as [[a|c|e] s1]; reflexivity. Qed.

Lemma bind_for_each_print {B} (f : string -> string) l (k : unit -> M B) s :
  bind (for_each (fun p => print (f p)) l) k s
  = k tt (log s (List.map (fun p => Print (f p)) l)).
Proof. unfold bind at 1. now rewrite for_each_print. Qed.

Section Emits.

Variable P : event -> Prop.

Lemma emits_silent {A} (m : M A) :
  (forall s, snd (m s) = s) -> emits P m.
Proof.
  intros H s r s' E. exists []. split; [|constructor].
  specialize (H s). rewrite E in H. simpl in H. subst s'.
  now rewrite app_nil_r.
Qed.

Lemma emits_ret {A} (a : A) : emits P (ret a).
Proof. now apply emits_silent. Qed.

Lemma emits_raise {A} e : emits P (@raise A e).
Proof. now apply emits_silent. Qed.

Lemma emits_sys_exit {A} c : emits P (@sys_exit A c).
Proof. now apply emits_silent. Qed.

Lemma emits_lift {A} (r : exn + A) : emits P (lift r).
Proof. destruct r; now apply emits_silent. Qed.

Lemma emits_get : emits P get_AUTOPEP8_FORMAT_CMD.
Proof. now apply emits_silent. Qed.

Lemma emits_set cmd : emits P (set_AUTOPEP8_FORMAT_CMD cmd).
Proof.
  intros s r s' E. injection E as <- <-. exists []. simpl.
  split; [now rewrite app_nil_r | constructor].
Qed.

Lemma emits_emit e : P e -> emits P (emit e).
Proof.
  intros He s r s' E. injection E as <- <-. exists [e]. simpl.
  split; [reflexivity | now constructor].
Qed.

Lemma emits_bind {A B} (m : M A) (k : A -> M B) :
  emits P m -> (forall a, emits P (k a)) -> emits P (bind m k).
Proof.
  intros Hm Hk s r s' E. unfold bind in E.
  destruct (m s) as [[a|c|e] s1] eqn:Em;
    destruct (Hm _ _ _ Em) as (evs & Ht & Hf).
  - destruct (Hk a _ _ _ E) as (evs' & Ht' & Hf').
    exists (evs ++ evs'). split.
    + now rewrite Ht', Ht, app_assoc.
    + now apply Forall_app.
  - injection E as <- <-. eauto.
  - injection E as <- <-. eauto.
Qed.

Lemma emits_version_output_loop h arg flags :
  (forall argv, P (Run VersionQuery argv)) ->
  emits P (version_output_loop h arg flags).
Proof.
  intros H. induction flags as [|is_default rest IH]; simpl.
  - apply emits_ret.
  - destruct (is_default && _); [exact IH|].
    apply emits_bind; [apply emits_emit, H|]. intros _.
    destruct (match subprocess_check_output h _ with
              | inl e => inl e | inr out => decode_utf8 h out end)
      as [[]|out]; try apply emits_raise; [exact IH|].
    apply emits_bind; [apply emits_set|]. intros _. apply emits_ret.
Qed.

Lemma emits_index t i : emits P (index t i).
Proof.
  unfold index. destruct (nth_error t i); [apply emits_ret|apply emits_raise].
Qed.

Lemma emits_autopep8_ensure_version h arg :
  (forall argv, P (Run VersionQuery argv)) ->
  (forall line, P (Print line)) ->
  emits P (autopep8_ensure_version h arg).
Proof.
  intros Hq Hp. unfold autopep8_ensure_version.
  apply emits_bind; [now apply emits_version_output_loop|].
  intros [version_output|]; [|apply emits_raise].
  apply emits_bind; [apply emits_lift|].
  intros [t|]; [|apply emits_ret].
  apply emits_bind; [apply emits_get|]. intros cmd.
  do 3 (apply emits_bind; [apply emits_index|]; intros ?).
  apply emits_bind; [apply emits_emit, Hp|]. intros _. apply emits_ret.
Qed.

End Emits.

Lemma emits_initial {A} P (m : M A) :
  emits P m -> Forall P (trace (snd (m initial_state))).
Proof.
  intros H. destruct (m initial_state) as [r s] eqn:E.
  destruct (H _ _ _ E) as (evs & Ht & Hf). simpl. now rewrite Ht.
Qed.

(** What [source_files_from_git] returns does not depend on the state, and
    it adds the one [GitQuery] event. *)
Lemma source_files_from_git_run h ps co s :
  source_files_from_git h ps co s
  = (fst (source_files_from_git h ps co initial_state),
     log s [Run GitQuery (git_command ps co)]).
Proof.
  unfold source_files_from_git, check_output, bind, emit, lift.
  destruct (subprocess_check_output h (git_command ps co)) as [e|out]; simpl.
  - reflexivity.
  - destruct (decode_each (Py.split "000" out)); reflexivity.
Qed.

Lemma autopep8_format_run h files s :
  exists r,
    autopep8_format h files s
    = (r, log s [Run Format (format_command h (AUTOPEP8_FORMAT_CMD s) files)]).
Proof.
  unfold autopep8_format, check_output, bind, emit, lift,
    get_AUTOPEP8_FORMAT_CMD. simpl.
  destruct (subprocess_check_output h _); simpl; eauto.
Qed.

(** ** The run of [main] *)

Lemma detection_not_format h arg :
  emits not_format (autopep8_ensure_version h arg).
Proof. apply emits_autopep8_ensure_version; intros; exact I. Qed.

Lemma detected_run h args v :
  detected h args v ->
  exists s1,
    autopep8_ensure_version h (autopep8_command args) initial_state
    = (Ret (Some v), s1)
    /\ Forall not_format (trace s1).
Proof.
  unfold detected. intros H.
  pose proof (emits_initial not_format
    (autopep8_ensure_version h (autopep8_command args))) as Hf.
  destruct (autopep8_ensure_version h (autopep8_command args) initial_state)
    as [r s1]. simpl in H. subst r. exists s1. split; [reflexivity|].
  apply Hf, detection_not_format.
Qed.

(** A version below the minimum: the message, then [sys.exit(1)]. *)
Lemma main_too_old h args v s1 :
  autopep8_ensure_version h (autopep8_command args) initial_state
  = (Ret (Some v), s1) ->
  Py.tuple_lt v VERSION_MIN = true ->
  run h args
  = (Exit 1,
     log s1 [Print ("Version of autopep8 is too old: " +:+ Py.repr_tuple v
                    +:+ " < " +:+ Py.repr_tuple VERSION_MIN)]).
Proof.
  intros E Hlt. unfold run, main. rewrite (bind_Ret _ _ _ _ _ E), Hlt.
  reflexivity.
Qed.

(** A version that is not below the minimum: the warning if there is one,
    the announcement, then the rest of [main]. *)
Lemma main_version_ok h args v s1 :
  autopep8_ensure_version h (autopep8_command args) initial_state
  = (Ret (Some v), s1) ->
  Py.tuple_lt v VERSION_MIN = false ->
  run h args
  = format_stage h args (log s1 (warning_events v ++ announce_events h args)).
Proof.
  intros E Hlt. unfold run, main. rewrite (bind_Ret _ _ _ _ _ E), Hlt.
  fold (resolved_paths h args). unfold warning_events, announce_events.
  rewrite bind_ret.
  destruct (Py.tuple_gt v VERSION_MAX_RECOMMENDED);
    rewrite ?bind_bind, ?bind_ret, !bind_print, bind_for_each_print, ?log_log;
    reflexivity.
Qed.

Lemma format_stage_run h args s :
  exists r,
    format_stage h args s
    = (r,
       log s (Run GitQuery (git_command (resolved_paths h args) (changed_only args))
              :: match fst (source_files_from_git h (resolved_paths h args)
                              (changed_only args) initial_state) with
                 | Ret files =>
                     match List.filter keep_file files with
                     | [] => []
                     | fs =>
                         [Run Format
                            (format_command h (AUTOPEP8_FORMAT_CMD s) fs)]
                     end
                 | _ => []
                 end))
    /\ (forall c, r <> Exit c)
    /\ (forall files,
          listed h args files -> List.filter keep_file files = [] -> r = Ret tt).
Proof.
  unfold format_stage, bind, listed.
  rewrite source_files_from_git_run.
  destruct (fst (source_files_from_git h _ _ initial_state)) as [files|c|e] eqn:E.
  - destruct (List.filter keep_file files) as [|f fs] eqn:Ef.
    + exists (Ret tt). split; [reflexivity|]. split; [discriminate|]. reflexivity.
    + destruct (autopep8_format_run h (f :: fs)
                  (log s [Run GitQuery
                            (git_command (resolved_paths h args)
                               (changed_only args))])) as (r & Er).
      rewrite Er, log_log. simpl.
      destruct r as [out|c|e]; eexists; (split; [reflexivity|]);
        (split; [try discriminate|intros files' Hl; congruence]).
      (* [autopep8_format] never exits *)
      exfalso. revert Er.
      unfold autopep8_format, check_output, bind, emit, lift,
        get_AUTOPEP8_FORMAT_CMD. simpl.
      destruct (subprocess_check_output h _); discriminate.
  - exfalso. revert E. unfold source_files_from_git, check_output, bind, emit, lift.
    destruct (subprocess_check_output h _); simpl; [discriminate|].
    destruct (decode_each _); discriminate.
  - exists (Raise e). split; [reflexivity|]. split; [discriminate|].
    intros files Hl. discriminate.
Qed.

(** When [autopep8_ensure_version] returns [None], [main] prints that the
    version cannot be detected and ends in [sys.exit(1)]. *)
Lemma main_undetected h args s1 :
  autopep8_ensure_version h (autopep8_command args) initial_state
  = (Ret None, s1) ->
  run h args = (Exit 1, log s1 [Print "Unable to detect 'autopep8 --version'"]).
Proof.
  intros E. unfold run, main. now rewrite (bind_Ret _ _ _ _ _ E).
Qed.

(** Either the run has no [Format] event, or the version check has passed
    and the run is the one of [format_stage]. *)
Lemma main_run_cases h args :
  Forall not_format (events h args)
  \/ exists v s1,
       Forall not_format (trace s1)
       /\ run h args
          = format_stage h args
              (log s1 (warning_events v ++ announce_events h args)).
Proof.
  pose proof (emits_initial not_format
    (autopep8_ensure_version h (autopep8_command args))) as Hf.
  destruct (autopep8_ensure_version h (autopep8_command args) initial_state)
    as [[[v|]|c|e] s1] eqn:E; simpl in Hf.
  - destruct (Py.tuple_lt v VERSION_MIN) eqn:Hlt.
    + left. unfold events. rewrite (main_too_old _ _ _ _ E Hlt). simpl.
      apply Forall_app. split; [apply Hf, detection_not_format|now repeat constructor].
    + right. exists v, s1. split; [apply Hf, detection_not_format|].
      now apply main_version_ok.
  - left. unfold events. rewrite (main_undetected _ _ _ E). simpl.
    apply Forall_app. split; [apply Hf, detection_not_format|now repeat constructor].
  - left. unfold events, run, main. rewrite (bind_Exit _ _ _ _ _ E).
    apply Hf, detection_not_format.
  - left. unfold events, run, main. rewrite (bind_Raise _ _ _ _ _ E).
    apply Hf, detection_not_format.
Qed.

Lemma not_format_In evs argv :
  Forall not_format evs -> ~ In (Run Format argv) evs.
Proof. rewrite List.Forall_forall. intros H Hin. exact (H _ Hin). Qed.

Lemma warning_events_not_format v : Forall not_format (warning_events v).
Proof.
  unfold warning_events. destruct (Py.tuple_gt _ _); now repeat constructor.
Qed.

Lemma announce_events_not_format h args :
  Forall not_format (announce_events h args).
Proof.
  constructor; [exact I|]. apply List.Forall_forall. intros e He.
  apply List.in_map_iff in He as (p & <- & _). exact I.
Qed.

(** A [Format] event of [main] is the one of [autopep8_format]: its command
    line is [format_command] for the global as the run leaves it, on the
    files of git's list that pass the filter. *)
Lemma format_event_inv h args argv :
  In (Run Format argv) (events h args) ->
  exists files,
    listed h args files
    /\ argv = format_command h (AUTOPEP8_FORMAT_CMD (snd (run h args)))
                (List.filter keep_file files).
Proof.
  intros Hin. destruct (main_run_cases h args) as [Hnf|(v & s1 & Hnf & Hrun)].
  - now apply not_format_In in Hin.
  - destruct (format_stage_run h args
                (log s1 (warning_events v ++ announce_events h args)))
      as (r & Hstage & _).
    rewrite Hstage in Hrun. unfold events in Hin. rewrite Hrun in *.
    simpl in Hin |- *. unfold listed.
    apply in_app_or in Hin as [Hin|Hin];
      [apply in_app_or in Hin as [Hin|Hin];
       [|apply in_app_or in Hin as [Hin|Hin]]|].
    + now apply not_format_In in Hin.
    + now apply (not_format_In _ _ (warning_events_not_format v)) in Hin.
    + now apply (not_format_In _ _ (announce_events_not_format h args)) in Hin.
    + destruct Hin as [Hin|Hin]; [discriminate|].
      destruct (fst (source_files_from_git h _ _ initial_state))
        as [files|c|e]; try easy.
      exists files. split; [reflexivity|].
      destruct (List.filter keep_file files) as [|f fs]; [easy|].
      destruct Hin as [Hin|[]]. now injection Hin as <-.
Qed.

Lemma tuple_lt_asym a b : Py.tuple_lt a b = true -> Py.tuple_lt b a = false.
Proof.
  revert b. induction a as [|x a IH]; intros [|y b]; simpl; try done.
  intros H. apply orb_true_iff in H as [H|H].
  - apply Z.ltb_lt in H.
    replace (y <? x) with false by (symmetry; apply Z.ltb_ge; lia).
    replace (y =? x) with false by (symmetry; apply Z.eqb_neq; lia).
    reflexivity.
  - apply andb_true_iff in H as [Hxy H]. apply Z.eqb_eq in Hxy. subst y.
    rewrite Z.ltb_irrefl, Z.eqb_refl. simpl. now apply IH.
Qed.

Lemma events_not_format_no_invocation h args :
  Forall not_format (events h args) -> ~ formatter_invoked h args.
Proof.
  intros H [argv Hin]. rewrite List.Forall_forall in H.
  exact (H _ Hin).
Qed.

(** ** Path resolution *)

Lemma normalize_separators_map h l :
  normalize_separators h l
  = List.map (fun f => if negb (String.eqb (os_sep h) "/")
                       then Py.replace "/" (os_sep h) f else f) l.
Proof.
  unfold normalize_separators.
  destruct (negb (String.eqb (os_sep h) "/")); [reflexivity|].
  now rewrite List.map_id.
Qed.

Lemma normalize_separators_app h l l' :
  normalize_separators h (l ++ l')
  = normalize_separators h l ++ normalize_separators h l'.
Proof. rewrite !normalize_separators_map. apply List.map_app. Qed.

Lemma normalize_separators_posix h l :
  os_sep h = "/" -> normalize_separators h l = l.
Proof. unfold normalize_separators. now intros ->. Qed.

Lemma filter_sublist {A} (f : A -> bool) l : sublist (List.filter f l) l.
Proof.
  induction l as [|x l IH]; simpl; [constructor|].
  destruct (f x); now constructor.
Qed.

(** C6: with [use_default_paths] true, [compute_paths] returns the five
    default directories whatever paths were given; the separator
    normalization leaves them as they are, since none contains a [/]. *)
Theorem compute_paths_default (h : Host) (paths : list string) :
  compute_paths h paths true
  = ["build_files"; "release"; "doc"; "source"; "tests"].
Proof.
  unfold compute_paths, normalize_separators.
  destruct (negb (String.eqb (os_sep h) "/")); reflexivity.
Qed.

(** C7, as amended: in [compute_paths] with [use_default_paths] false, an
    argument that is not an existing file, or that ends in [.py], takes its
    place in the result between what the arguments before and after it
    give, rewritten by the separator normalization only (not at all when
    the host's separator is [/], and otherwise with each [/] replaced by
    the separator); an existing file with another suffix gives nothing. *)
Theorem compute_paths_user_argument (h : Host) (pre post : list string)
    (f : string) :
  (os_path_isfile h f = false \/ Py.endswith f ".py" = true ->
   compute_paths h (pre ++ f :: post) false
   = compute_paths h pre false ++ normalize_separators h [f]
     ++ compute_paths h post false)
  /\ (os_path_isfile h f = true -> Py.endswith f ".py" = false ->
      compute_paths h (pre ++ f :: post) false
      = compute_paths h pre false ++ compute_paths h post false)
  /\ (os_sep h = "/" -> normalize_separators h [f] = [f])
  /\ (os_sep h <> "/" ->
      normalize_separators h [f] = [Py.replace "/" (os_sep h) f]).
Proof.
  unfold compute_paths.
  rewrite List.filter_app. simpl.
  assert (Hk : keep_path h f
               = negb (os_path_isfile h f) || Py.endswith f ".py")
    by (unfold keep_path; now rewrite endswith_any_extensions).
  rewrite Hk. repeat split.
  - intros H.
    replace (negb (os_path_isfile h f) || Py.endswith f ".py") with true.
    + now rewrite <- !normalize_separators_app.
    + symmetry. apply orb_true_iff.
      destruct H as [-> | ->]; [left|right]; reflexivity.
  - intros -> ->. simpl. apply normalize_separators_app.
  - apply normalize_separators_posix.
  - intros H. unfold normalize_separators.
    destruct (String.eqb_spec (os_sep h) "/"); [contradiction|reflexivity].
Qed.

Lemma compute_paths_user_argument_witness :
  os_path_isfile windows_host "a/b" = false
  /\ compute_paths windows_host (["x.c"] ++ "a/b" :: ["c.py"]) false
     = compute_paths windows_host ["x.c"] false
       ++ normalize_separators windows_host ["a/b"]
       ++ compute_paths windows_host ["c.py"] false
  /\ compute_paths windows_host ["x.c"; "a/b"; "c.py"] false = ["a\b"; "c.py"].
Proof.
  split; [reflexivity|]. split; [|reflexivity].
  apply (proj1 (compute_paths_user_argument windows_host ["x.c"] ["c.py"] "a/b")).
  left. reflexivity.
Defined.

(** C7, as stated, fails where the separator is not [/]: the argument
    [a/b] is not an existing file, and the result holds [a\b] in its
    place. *)
Lemma compute_paths_rewrites_argument :
  os_path_isfile windows_host "a/b" = false
  /\ compute_paths windows_host ["a/b"] false = ["a\b"]
  /\ ~ In "a/b" (compute_paths windows_host ["a/b"] false).
Proof.
  split; [reflexivity|]. split; [reflexivity|].
  simpl. intros [H|[]]. discriminate H.
Qed.

(** C10: with [use_default_paths] false, what [compute_paths] has before
    the separator normalization is a sublist of the arguments (some are
    removed, none added, moved or changed), and the normalization of that
    sublist is the result; where the separator is [/] the result itself is
    that sublist. *)
Theorem compute_paths_sublist (h : Host) (paths : list string) :
  exists kept,
    sublist kept paths
    /\ compute_paths h paths false = normalize_separators h kept
    /\ (os_sep h = "/" -> compute_paths h paths false = kept).
Proof.
  exists (List.filter (keep_path h) paths). split; [apply filter_sublist|].
  split; [reflexivity|]. intros H. now apply normalize_separators_posix.
Qed.

Lemma compute_paths_sublist_witness :
  exists kept,
    sublist kept ["x.c"; "a/b"; "c.py"]
    /\ compute_paths windows_host ["x.c"; "a/b"; "c.py"] false
       = normalize_separators windows_host kept
    /\ (os_sep windows_host = "/" ->
        compute_paths windows_host ["x.c"; "a/b"; "c.py"] false = kept).
Proof. exact (compute_paths_sublist windows_host ["x.c"; "a/b"; "c.py"]). Defined.

(** ** The version check *)

(** C1: when [autopep8_ensure_version] returns a version below
    [VERSION_MIN] (such as (1, 5, 9) against (1, 6, 0)), [main] ends in
    [sys.exit(1)], the exit status is 1, and [autopep8_format] has not been
    run; the last line printed says that the version is too old.  (The
    [--version] query has run: it is how the version was detected.) *)
Theorem version_below_minimum_exits (h : Host) (args : Args) (v : list Z) :
  detected h args v ->
  Py.tuple_lt v VERSION_MIN = true ->
  fst (run h args) = Exit 1
  /\ exit_status (fst (run h args)) = 1
  /\ ~ formatter_invoked h args
  /\ last (events h args)
     = Some (Print ("Version of autopep8 is too old: " +:+ Py.repr_tuple v
                    +:+ " < (1, 6, 0)")).
Proof.
  intros Hd Hlt. destruct (detected_run _ _ _ Hd) as (s1 & E & Hnf).
  pose proof (main_too_old _ _ _ _ E Hlt) as Hrun.
  unfold events. rewrite Hrun. simpl.
  split; [reflexivity|]. split; [reflexivity|]. split.
  - apply events_not_format_no_invocation. unfold events. rewrite Hrun. simpl.
    apply Forall_app. split; [exact Hnf|]. now repeat constructor.
  - now rewrite last_snoc.
Qed.

Lemma version_below_minimum_exits_witness :
  let h := posix_host "autopep8 1.5.9 (pycodestyle: 2.8.0)" sample_listing in
  (detected h no_arguments [1; 5; 9]
   /\ Py.tuple_lt [1; 5; 9] VERSION_MIN = true)
  /\ fst (run h no_arguments) = Exit 1
  /\ exit_status (fst (run h no_arguments)) = 1
  /\ ~ formatter_invoked h no_arguments
  /\ last (events h no_arguments)
     = Some (Print "Version of autopep8 is too old: (1, 5, 9) < (1, 6, 0)").
Proof.
  cbv zeta. split; [split; reflexivity|].
  apply (version_below_minimum_exits
           (posix_host "autopep8 1.5.9 (pycodestyle: 2.8.0)" sample_listing)
           no_arguments [1; 5; 9]); reflexivity.
Defined.

(** C4: when the version check has passed and none of the files that
    [source_files_from_git] returns passes the filter of [main], [main]
    returns, the exit status is 0, and [autopep8_format] is not run. *)
Theorem empty_file_list_skips_formatter (h : Host) (args : Args)
    (v : list Z) (files : list string) :
  detected h args v ->
  Py.tuple_lt v VERSION_MIN = false ->
  listed h args files ->
  List.filter keep_file files = [] ->
  fst (run h args) = Ret tt
  /\ exit_status (fst (run h args)) = 0
  /\ ~ formatter_invoked h args.
Proof.
  intros Hd Hlt Hl Hf. destruct (detected_run _ _ _ Hd) as (s1 & E & Hnf).
  pose proof (main_version_ok _ _ _ _ E Hlt) as Hrun.
  destruct (format_stage_run h args
              (log s1 (warning_events v ++ announce_events h args)))
    as (r & Hstage & _ & Hret).
  rewrite Hstage in Hrun. rewrite (Hret _ Hl Hf) in Hrun.
  red in Hl. rewrite Hl, Hf in Hrun.
  unfold events. rewrite Hrun. simpl.
  split; [reflexivity|]. split; [reflexivity|].
  apply events_not_format_no_invocation. unfold events. rewrite Hrun. simpl.
  rewrite !Forall_app. split; [split; [exact Hnf|split]|now repeat constructor].
  - apply warning_events_not_format.
  - apply announce_events_not_format.
Qed.

Lemma empty_file_list_skips_formatter_witness :
  let h := posix_host "autopep8 1.6.0 (pycodestyle: 2.9.1)"
             ("b.c" +:+ NUL) in
  (detected h no_arguments [1; 6; 0]
   /\ Py.tuple_lt [1; 6; 0] VERSION_MIN = false
   /\ listed h no_arguments ["b.c"; EmptyString]
   /\ List.filter keep_file ["b.c"; EmptyString] = [])
  /\ fst (run h no_arguments) = Ret tt
  /\ exit_status (fst (run h no_arguments)) = 0
  /\ ~ formatter_invoked h no_arguments.
Proof.
  cbv zeta. split; [repeat split|].
  apply (empty_file_list_skips_formatter
           (posix_host "autopep8 1.6.0 (pycodestyle: 2.9.1)" ("b.c" +:+ NUL))
           no_arguments [1; 6; 0] ["b.c"; EmptyString]); reflexivity.
Defined.

(** ** The files handed to the formatter *)

Lemma ignored_in_ignore_files :
  "release/scripts/modules/rna_manual_reference.py" ∈ ignore_files.
Proof. unfold ignore_files. now apply elem_of_singleton. Qed.

(** The run used as an example below: git lists [a.py], [b.c] and the
    generated file, and the formatter is run on [a.py] alone. *)
Lemma sample_run_events :
  In (Run Format ["autopep8"; "--recursive"; "--in-place"; "--jobs=0"; "a.py"])
     (events (posix_host "autopep8 1.6.0 (pycodestyle: 2.9.1)" sample_listing)
        no_arguments).
Proof. vm_compute. tauto. Qed.

(** C5: whatever git lists, the files on the command line that
    [autopep8_format] runs, which are those of git's list that pass the
    filter, do not include
    [release/scripts/modules/rna_manual_reference.py]. *)
Theorem ignored_file_never_formatted (h : Host) (args : Args)
    (argv : list string) :
  In (Run Format argv) (events h args) ->
  exists files,
    listed h args files
    /\ argv = format_command h (AUTOPEP8_FORMAT_CMD (snd (run h args)))
                (List.filter keep_file files)
    /\ ~ In "release/scripts/modules/rna_manual_reference.py"
           (List.filter keep_file files).
Proof.
  intros Hin. destruct (format_event_inv _ _ _ Hin) as (files & Hl & ->).
  exists files. split; [exact Hl|]. split; [reflexivity|]. intros Hf.
  apply filter_In in Hf as [_ Hf]. apply keep_file_spec in Hf.
  destruct Hf as [_ Hf]. exact (Hf ignored_in_ignore_files).
Qed.

Lemma ignored_file_never_formatted_witness :
  let h := posix_host "autopep8 1.6.0 (pycodestyle: 2.9.1)" sample_listing in
  In (Run Format ["autopep8"; "--recursive"; "--in-place"; "--jobs=0"; "a.py"])
     (events h no_arguments)
  /\ exists files,
    listed h no_arguments files
    /\ ["autopep8"; "--recursive"; "--in-place"; "--jobs=0"; "a.py"]
       = format_command h (AUTOPEP8_FORMAT_CMD (snd (run h no_arguments)))
           (List.filter keep_file files)
    /\ ~ In "release/scripts/modules/rna_manual_reference.py"
           (List.filter keep_file files).
Proof.
  cbv zeta. split; [exact sample_run_events|].
  apply (ignored_file_never_formatted
           (posix_host "autopep8 1.6.0 (pycodestyle: 2.9.1)" sample_listing)
           no_arguments).
  exact sample_run_events.
Defined.

Lemma fields_terminated p out c :
  p c = true ->
  exists w ws,
    Py.fields p (out +:+ String c EmptyString) = w :: ws ++ [EmptyString].
Proof.
  intros Hc. induction out as [|a out IH]; simpl.
  - rewrite Hc. now exists EmptyString, [].
  - destruct IH as (w & ws & ->). destruct (p a).
    + now exists EmptyString, (w :: ws).
    + now exists (String a w), ws.
Qed.

(** The listing that [-z] prints ends in NUL, so the last of its fields is
    the empty string. *)
Lemma split_NUL_terminated out :
  exists w ws, Py.split "000" (out +:+ NUL) = w :: ws ++ [EmptyString].
Proof. now apply fields_terminated. Qed.

(** C9: every file on the command line that [autopep8_format] runs ends in
    [.py]; none is the empty string, which the split of git's
    NUL-terminated output yields as its last field. *)
Theorem formatted_files_end_in_py (h : Host) (args : Args)
    (argv : list string) :
  In (Run Format argv) (events h args) ->
  exists files,
    listed h args files
    /\ argv = format_command h (AUTOPEP8_FORMAT_CMD (snd (run h args)))
                (List.filter keep_file files)
    /\ forall f, In f (List.filter keep_file files) ->
         Py.endswith f ".py" = true /\ f <> EmptyString.
Proof.
  intros Hin. destruct (format_event_inv _ _ _ Hin) as (files & Hl & ->).
  exists files. split; [exact Hl|]. split; [reflexivity|]. intros f Hf.
  apply filter_In in Hf as [_ Hf]. apply keep_file_spec in Hf.
  destruct Hf as [Hpy _]. split; [exact Hpy|].
  now apply (endswith_nonempty f ".py").
Qed.

Lemma formatted_files_end_in_py_witness :
  let h := posix_host "autopep8 1.6.0 (pycodestyle: 2.9.1)" sample_listing in
  In (Run Format ["autopep8"; "--recursive"; "--in-place"; "--jobs=0"; "a.py"])
     (events h no_arguments)
  /\ exists files,
    listed h no_arguments files
    /\ ["autopep8"; "--recursive"; "--in-place"; "--jobs=0"; "a.py"]
       = format_command h (AUTOPEP8_FORMAT_CMD (snd (run h no_arguments)))
           (List.filter keep_file files)
    /\ forall f, In f (List.filter keep_file files) ->
         Py.endswith f ".py" = true /\ f <> EmptyString.
Proof.
  cbv zeta. split; [exact sample_run_events|].
  apply (formatted_files_end_in_py
           (posix_host "autopep8 1.6.0 (pycodestyle: 2.9.1)" sample_listing)
           no_arguments).
  exact sample_run_events.
Defined.

(** ** A version above the recommended maximum *)

(** C8, as amended: when [autopep8_ensure_version] returns a version above
    [VERSION_MAX_RECOMMENDED], [main] prints the warning and goes on: it
    runs the git query, it does not end in [sys.exit], and it runs
    [autopep8_format] on the filtered files whenever git's list leaves at
    least one after the filter. *)
Theorem version_above_maximum_warns (h : Host) (args : Args) (v : list Z) :
  detected h args v ->
  Py.tuple_gt v VERSION_MAX_RECOMMENDED = true ->
  In (Print ("WARNING: Version of autopep8 is too recent: "
             +:+ Py.repr_tuple v +:+ " > (1, 6, 0)")) (events h args)
  /\ In (Print ("You may want to install autopep8-1.6, "
                +:+ "or use the precompiled libs repository."))
        (events h args)
  /\ In (Run GitQuery
           (git_command (resolved_paths h args) (changed_only args)))
        (events h args)
  /\ (forall code, fst (run h args) <> Exit code)
  /\ (forall files,
        listed h args files ->
        List.filter keep_file files <> [] ->
        In (Run Format
              (format_command h (AUTOPEP8_FORMAT_CMD (snd (run h args)))
                 (List.filter keep_file files)))
           (events h args)).
Proof.
  intros Hd Hgt. destruct (detected_run _ _ _ Hd) as (s1 & E & _).
  assert (Hlt : Py.tuple_lt v VERSION_MIN = false)
    by (apply tuple_lt_asym; exact Hgt).
  pose proof (main_version_ok _ _ _ _ E Hlt) as Hrun.
  destruct (format_stage_run h args
              (log s1 (warning_events v ++ announce_events h args)))
    as (r & Hstage & Hexit & _).
  rewrite Hstage in Hrun. unfold events. rewrite Hrun. simpl.
  unfold warning_events at 1 2. rewrite Hgt.
  split; [|split; [|split; [|split]]].
  - apply in_or_app. left. apply in_or_app. right. now left.
  - apply in_or_app. left. apply in_or_app. right. right. now left.
  - apply in_or_app. right. now left.
  - exact Hexit.
  - intros files Hl Hne. red in Hl. rewrite Hl.
    destruct (List.filter keep_file files) as [|f fs]; [done|].
    apply in_or_app. right. right. now left.
Qed.

Lemma version_above_maximum_warns_witness :
  let h := posix_host "autopep8 2.0.0 (pycodestyle: 2.10.0)" sample_listing in
  (detected h no_arguments [2; 0; 0]
   /\ Py.tuple_gt [2; 0; 0] VERSION_MAX_RECOMMENDED = true)
  /\ In (Print "WARNING: Version of autopep8 is too recent: (2, 0, 0) > (1, 6, 0)")
        (events h no_arguments)
  /\ In (Print ("You may want to install autopep8-1.6, "
                +:+ "or use the precompiled libs repository."))
        (events h no_arguments)
  /\ In (Run GitQuery
           (git_command (resolved_paths h no_arguments)
              (changed_only no_arguments)))
        (events h no_arguments)
  /\ (forall code, fst (run h no_arguments) <> Exit code)
  /\ (forall files,
        listed h no_arguments files ->
        List.filter keep_file files <> [] ->
        In (Run Format
              (format_command h
                 (AUTOPEP8_FORMAT_CMD (snd (run h no_arguments)))
                 (List.filter keep_file files)))
           (events h no_arguments)).
Proof.
  cbv zeta. split; [split; reflexivity|].
  apply (version_above_maximum_warns
           (posix_host "autopep8 2.0.0 (pycodestyle: 2.10.0)" sample_listing)
           no_arguments [2; 0; 0]); reflexivity.
Defined.

(** C8, as stated, fails when nothing is left to format: the version is
    (2, 0, 0), git lists [b.c] only, and [main] returns without running
    [autopep8_format]. *)
Lemma version_above_maximum_without_formatter :
  let h := posix_host "autopep8 2.0.0 (pycodestyle: 2.10.0)" ("b.c" +:+ NUL) in
  detected h no_arguments [2; 0; 0]
  /\ Py.tuple_gt [2; 0; 0] VERSION_MAX_RECOMMENDED = true
  /\ fst (run h no_arguments) = Ret tt
  /\ ~ formatter_invoked h no_arguments.
Proof.
  split; [reflexivity|]. split; [reflexivity|]. split; [reflexivity|].
  apply events_not_format_no_invocation. vm_compute.
  repeat constructor.
Qed.

(** ** No usable formatter *)

(** When the loop of [autopep8_ensure_version] ends without a candidate
    that could be started, [version_output] is [None] and the call of its
    [split] raises: nothing is printed and [main] does not reach its own
    message. *)
Lemma main_no_candidate h args :
  fst (version_output_loop h (autopep8_command args) [true; false]
         initial_state) = Ret None ->
  fst (run h args) = Raise AttributeError
  /\ Forall (fun e => ~ is_print e) (events h args).
Proof.
  intros H.
  pose proof (emits_initial (fun e => ~ is_print e)
    (version_output_loop h (autopep8_command args) [true; false])) as Hf.
  unfold events, run, main, autopep8_ensure_version.
  destruct (version_output_loop h (autopep8_command args) [true; false]
              initial_state) as [r s1] eqn:E.
  simpl in H. subst r.
  rewrite bind_bind, (bind_Ret _ _ _ _ _ E). simpl.
  split; [reflexivity|].
  apply Hf. apply emits_version_output_loop. intros argv. simpl. tauto.
Qed.

(** When a candidate has printed its version and no token of it starts
    with a digit, [main] prints its message and ends in [sys.exit(1)]. *)
Lemma undetected_version_reported h args text s1 :
  version_output_loop h (autopep8_command args) [true; false] initial_state
  = (Ret (Some text), s1) ->
  parse_version text = inr None ->
  run h args = (Exit 1, log s1 [Print "Unable to detect 'autopep8 --version'"]).
Proof.
  intros E Hp. apply main_undetected. unfold autopep8_ensure_version.
  rewrite (bind_Ret _ _ _ _ _ E), Hp. reflexivity.
Qed.

(** A first token with a digit in front that is not a dotted sequence of
    integers, as in [1.6.0rc1], ends the run in a [ValueError]. *)
Lemma unparsable_token_raises :
  run (posix_host "autopep8 1.6.0rc1" EmptyString) no_arguments
  = (Raise ValueError,
     {| AUTOPEP8_FORMAT_CMD := "autopep8";
        trace := [Run VersionQuery ["autopep8"; "--version"]] |}).
Proof. reflexivity. Qed.

(** C3, on the code: when the command given does not exist on disk and
    [autopep8] cannot be started either, no candidate yields a version, but
    [main] does not report it: the run ends in an [AttributeError] that
    nothing catches, after the one attempt to run [autopep8 --version], with
    nothing printed and [sys.exit(1)] not reached. *)
Theorem no_candidate_raises (h : Host) (args : Args) :
  os_path_exists h (autopep8_command args) = false ->
  subprocess_check_output h ["autopep8"; "--version"] = inl FileNotFoundError ->
  run h args
  = (Raise AttributeError,
     {| AUTOPEP8_FORMAT_CMD := "autopep8";
        trace := [Run VersionQuery ["autopep8"; "--version"]] |}).
Proof.
  intros Hexists Hrun.
  unfold run, main, autopep8_ensure_version, version_output_loop.
  rewrite Hexists, andb_false_r. simpl.
  rewrite !bind_bind. unfold bind at 1. simpl.
  rewrite Hrun. reflexivity.
Qed.

Lemma no_candidate_raises_witness :
  (os_path_exists bare_host (autopep8_command no_arguments) = false
   /\ subprocess_check_output bare_host ["autopep8"; "--version"]
      = inl FileNotFoundError)
  /\ run bare_host no_arguments
     = (Raise AttributeError,
        {| AUTOPEP8_FORMAT_CMD := "autopep8";
           trace := [Run VersionQuery ["autopep8"; "--version"]] |}).
Proof.
  split; [split; reflexivity|]. apply no_candidate_raises; reflexivity.
Defined.

(** ** Version parsing *)

Lemma append_empty_r (s : string) : s +:+ EmptyString = s.
Proof.
  induction s as [|c s IH]; [reflexivity|].
  change (String c (s +:+ EmptyString) = String c s). now rewrite IH.
Qed.

Lemma nonempty_append s t : Py.nonempty s = true -> Py.nonempty (s +:+ t) = true.
Proof. now destruct s. Qed.

Lemma leading_digit_append s t :
  Py.nonempty s = true -> leading_digit (s +:+ t) = leading_digit s.
Proof. now destruct s. Qed.

Lemma first_digit_token_cons w tokens :
  Py.nonempty w = true ->
  first_digit_token (w :: tokens)
  = if leading_digit w then inr (Some w) else first_digit_token tokens.
Proof. now destruct w. Qed.

(** A token followed by a separator is the first field. *)
Lemma fields_token_sep p t c s :
  free_of p t = true -> p c = true ->
  Py.fields p (t +:+ String c s) = t :: Py.fields p s.
Proof.
  intros Ht Hc. rewrite (fields_app_clean p t _ Ht). simpl. rewrite Hc. simpl.
  now rewrite append_empty_r.
Qed.

(** A token followed by a character that is no separator starts the first
    field. *)
Lemma fields_token_glue p t c s :
  free_of p t = true -> p c = false ->
  exists w ws,
    Py.fields p s = w :: ws
    /\ Py.fields p (t +:+ String c s) = (t +:+ String c w) :: ws.
Proof.
  intros Ht Hc. rewrite (fields_app_clean p t _ Ht). simpl. rewrite Hc.
  destruct (Py.fields p s) as [|w ws] eqn:E; [now apply fields_not_nil in E|].
  now exists w, ws.
Qed.

Lemma split_whitespace_token t :
  is_token t = true -> Py.split_whitespace t = [t].
Proof.
  intros H. apply andb_true_iff in H as [Hne Hfree].
  unfold Py.split_whitespace. rewrite (fields_clean _ _ Hfree). simpl.
  now rewrite Hne.
Qed.

Lemma split_whitespace_skip w rest :
  is_token w = true ->
  Py.split_whitespace (w +:+ " " +:+ rest) = w :: Py.split_whitespace rest.
Proof.
  intros H. apply andb_true_iff in H as [Hne Hfree].
  unfold Py.split_whitespace.
  change (" " +:+ rest) with (String " " rest).
  rewrite (fields_token_sep _ _ _ _ Hfree) by reflexivity. simpl.
  now rewrite Hne.
Qed.

Lemma parse_version_token t :
  is_token t = true -> leading_digit t = true -> free_of (Ascii.eqb "-") t = true ->
  parse_version t
  = (match int_each (Py.split "." t) with
       | inl e => inl e
       | inr version => inr (Some version)
       end).
Proof.
  intros Ht Hd Hh. unfold parse_version.
  rewrite (split_whitespace_token _ Ht).
  apply andb_true_iff in Ht as [Hne _].
  rewrite (first_digit_token_cons _ _ Hne), Hd.
  unfold Py.split. now rewrite (fields_clean _ _ Hh).
Qed.

Lemma parse_version_hyphen t suffix :
  is_token t = true -> leading_digit t = true -> free_of (Ascii.eqb "-") t = true ->
  parse_version (t +:+ "-" +:+ suffix)
  = (match int_each (Py.split "." t) with
       | inl e => inl e
       | inr version => inr (Some version)
       end).
Proof.
  intros Ht Hd Hh. unfold parse_version, Py.split_whitespace.
  apply andb_true_iff in Ht as [Hne Hfree].
  change ("-" +:+ suffix) with (String "-" suffix).
  destruct (fields_token_glue Py.isspace t "-" suffix Hfree eq_refl)
    as (w & ws & _ & ->).
  simpl List.filter. rewrite (nonempty_append _ _ Hne).
  rewrite first_digit_token_cons by now apply nonempty_append.
  rewrite (leading_digit_append _ _ Hne), Hd.
  unfold Py.split. rewrite (fields_token_sep _ _ _ _ Hh) by reflexivity.
  reflexivity.
Qed.


(** * Further properties of the script *)

(** ** Integers and their decimal form *)

Lemma int_digits_step acc after c s k :
  Py.isdecimal c = true -> Z.of_N (Py.code c) - 48 = k ->
  Py.int_digits acc after (String c s) = Py.int_digits (10 * acc + k) true s.
Proof.
  intros Hd <-. simpl.
  destruct (Ascii.eqb_spec c "_") as [->|_]; [discriminate Hd|].
  now rewrite Hd.
Qed.

Ltac digit_step :=
  match goal with
  | |- context [Py.int_digits ?a ?b (String ?c ?s)] =>
      let k := eval vm_compute in (Z.of_N (Py.code c) - 48) in
      rewrite (int_digits_step a b c s k eq_refl eq_refl)
  end.

Lemma int_digits_acc d acc :
  Py.int_digits (Z.pos acc) true (NilEmpty.string_of_uint d)
  = Some (Z.pos (Pos.of_uint_acc d acc)).
Proof.
  revert acc. induction d; intros acc; [reflexivity|..];
    cbn [NilEmpty.string_of_uint Pos.of_uint_acc];
    digit_step; rewrite <- IHd; f_equal; lia.
Qed.

Lemma int_digits_zero d :
  Py.int_digits 0 true (NilEmpty.string_of_uint d)
  = Some (Z.of_N (Pos.of_uint d)).
Proof.
  induction d; [reflexivity|..];
    cbn [NilEmpty.string_of_uint Pos.of_uint];
    digit_step; [exact IHd|..]; apply (int_digits_acc d).
Qed.

Lemma int_digits_uint d :
  d <> Decimal.Nil ->
  Py.int_digits 0 false (NilEmpty.string_of_uint d)
  = Some (Z.of_N (Pos.of_uint d)).
Proof.
  destruct d; [done|..]; intros _;
    cbn [NilEmpty.string_of_uint Pos.of_uint];
    digit_step; [apply int_digits_zero|..]; apply (int_digits_acc d).
Qed.

Lemma free_of_cons p c s :
  free_of p (String c s) = negb (p c) && free_of p s.
Proof. reflexivity. Qed.

Lemma free_of_app p s t :
  free_of p (s +:+ t) = free_of p s && free_of p t.
Proof.
  induction s as [|c s IH]; [reflexivity|].
  change (String c s +:+ t) with (String c (s +:+ t)).
  now rewrite !free_of_cons, IH, andb_assoc.
Qed.

(** A decimal digit is no whitespace, hyphen or dot. *)
Lemma decimal_not_separator c :
  Py.isdecimal c = true ->
  Py.isspace c = false /\ Ascii.eqb "-" c = false /\ Ascii.eqb "." c = false.
Proof.
  destruct c as [[] [] [] [] [] [] [] []]; vm_compute; intros H;
    (discriminate H || (repeat split)).
Qed.

(** The decimal form of a number has decimal digits only. *)
Lemma digits_free p d :
  (forall c, Py.isdecimal c = true -> p c = false) ->
  free_of p (NilEmpty.string_of_uint d) = true.
Proof.
  intros H. induction d; [reflexivity|..];
    cbn [NilEmpty.string_of_uint]; rewrite free_of_cons, IHd, H;
    reflexivity.
Qed.

Lemma digits_leading d :
  d <> Decimal.Nil ->
  Py.nonempty (NilEmpty.string_of_uint d) = true
  /\ leading_digit (NilEmpty.string_of_uint d) = true.
Proof. destruct d; [done|..]; intros _; split; reflexivity. Qed.

Lemma decimal_not_int_space c :
  Py.isdecimal c = true -> Py.isspace_int c = false.
Proof.
  destruct c as [[] [] [] [] [] [] [] []]; vm_compute; intros H;
    (discriminate H || reflexivity).
Qed.

Lemma rstrip_go_clean p s :
  free_of p s = true ->
  Py.rstrip_go p s = if Py.nonempty s then Some s else None.
Proof.
  induction s as [|c s IH]; [reflexivity|].
  rewrite free_of_cons, andb_true_iff, negb_true_iff. intros [Hc Hs].
  simpl. rewrite (IH Hs), Hc. now destruct s.
Qed.

Lemma strip_clean p s : free_of p s = true -> Py.strip p s = s.
Proof.
  intros H. unfold Py.strip.
  assert (Hl : Py.lstrip p s = s).
  { destruct s as [|c s]; [reflexivity|].
    rewrite free_of_cons, andb_true_iff, negb_true_iff in H.
    destruct H as [Hc _]. simpl. now rewrite Hc. }
  rewrite Hl, (rstrip_go_clean _ _ H). now destruct s.
Qed.

Lemma digit_count_uint d :
  Py.digit_count (NilEmpty.string_of_uint d) = N.of_nat (Decimal.nb_digits d).
Proof.
  induction d; [reflexivity|..];
    cbn [NilEmpty.string_of_uint Decimal.nb_digits Py.digit_count];
    change (Py.isdecimal _) with true; cbv iota; rewrite IHd; lia.
Qed.

(** Each further digit multiplies by ten at least. *)
Lemma of_uint_acc_lower d acc :
  Z.pos acc * 10 ^ Z.of_nat (Decimal.nb_digits d)
  <= Z.pos (Pos.of_uint_acc d acc).
Proof.
  revert acc. induction d; intros acc;
    cbn [Pos.of_uint_acc Decimal.nb_digits];
    [rewrite Z.pow_0_r; lia|..];
    rewrite Nat2Z.inj_succ, Z.pow_succ_r by lia;
    (etransitivity; [|apply IHd]);
    assert (0 < 10 ^ Z.of_nat (Decimal.nb_digits d))
      by (apply Z.pow_pos_nonneg; lia); nia.
Qed.

(** The decimal form of a positive number starts with a digit that is not
    zero. *)
Lemma to_uint_head p : forall d, Pos.to_uint p <> Decimal.D0 d.
Proof.
  intros d Hd.
  pose proof (DecimalPos.Unsigned.of_to p) as Hof.
  pose proof (DecimalPos.Unsigned.to_of (Pos.to_uint p)) as Hto.
  rewrite Hof in Hto. change (N.to_uint (N.pos p)) with (Pos.to_uint p) in Hto.
  pose proof (DecimalPos.Unsigned.to_uint_nonzero p) as Hnz.
  assert (Hhead : Decimal.nzhead (Pos.to_uint p) <> Decimal.Nil).
  { intros Hnil. apply Hnz. rewrite Hto. unfold Decimal.unorm.
    now rewrite Hnil. }
  rewrite (DecimalFacts.unorm_nzhead _ Hhead) in Hto.
  rewrite Hd in Hto at 1.
  exact (DecimalFacts.nzhead_nonzero _ _ (eq_sym Hto)).
Qed.

(** A number below 10^4300 has no more than 4300 digits. *)
Lemma to_uint_digits p :
  Z.pos p < 10 ^ 4300 ->
  (N.of_nat (Decimal.nb_digits (Pos.to_uint p)) <= 4300)%N.
Proof.
  intros Hp.
  pose proof (DecimalPos.Unsigned.of_to p) as Hof.
  pose proof (to_uint_head p) as Hhead.
  destruct (Pos.to_uint p) as [|d|d|d|d|d|d|d|d|d|d] eqn:E;
    [cbn; lia|now destruct (Hhead d)|..];
    cbn [Pos.of_uint] in Hof; injection Hof as Hof;
    cbn [Decimal.nb_digits];
    (destruct (Z.le_gt_cases 4300 (Z.of_nat (Decimal.nb_digits d)))
       as [Hbig|Hsmall]; [exfalso|lia]);
    (match goal with
     | H : Pos.of_uint_acc d ?k = p |- _ =>
         pose proof (of_uint_acc_lower d k) as Hlow; rewrite H in Hlow
     end);
    pose proof (Z.pow_le_mono_r 10 4300 (Z.of_nat (Decimal.nb_digits d))
                  ltac:(lia) Hbig) as Hpow;
    assert (0 < 10 ^ 4300) by (apply Z.pow_pos_nonneg; lia);
    set (B := 10 ^ 4300) in *;
    set (C := 10 ^ Z.of_nat (Decimal.nb_digits d)) in *; nia.
Qed.

(** A number that is not negative, in decimal. *)
Lemma fmt_d_uint a :
  0 <= a ->
  exists d,
    d <> Decimal.Nil
    /\ Py.fmt_d a = NilEmpty.string_of_uint d
    /\ Z.of_N (Pos.of_uint d) = a.
Proof.
  intros Ha. destruct a as [|p|p]; [| |lia].
  - exists (Decimal.D0 Decimal.Nil). repeat split. discriminate.
  - exists (Pos.to_uint p). split; [apply DecimalPos.Unsigned.to_uint_nonnil|].
    split; [reflexivity|]. now rewrite DecimalPos.Unsigned.of_to.
Qed.

Lemma fmt_d_digit_count a :
  0 <= a < 10 ^ 4300 ->
  (Py.digit_count (Py.fmt_d a) <= Py.int_max_str_digits)%N.
Proof.
  intros [Ha Hb]. destruct a as [|p|p]; [now cbn| |lia].
  change (Py.fmt_d (Z.pos p)) with (NilEmpty.string_of_uint (Pos.to_uint p)).
  rewrite digit_count_uint. now apply to_uint_digits.
Qed.

(** [int] reads back what [%d] writes. *)
Lemma int_fmt_d a : 0 <= a < 10 ^ 4300 -> Py.int (Py.fmt_d a) = Some a.
Proof.
  intros Ha. pose proof (fmt_d_digit_count a Ha) as Hcount.
  destruct (fmt_d_uint a (proj1 Ha)) as (d & Hd & Hfmt & <-).
  rewrite Hfmt in *. unfold Py.int.
  rewrite strip_clean
    by (apply digits_free; intros c Hc; apply (decimal_not_int_space c Hc)).
  transitivity (Py.int_unsigned (NilEmpty.string_of_uint d));
    [destruct d; [done|..]; reflexivity|].
  unfold Py.int_unsigned.
  apply N.ltb_ge in Hcount. rewrite Hcount.
  exact (int_digits_uint _ Hd).
Qed.

(** ** A dotted version and its text *)

Lemma append_assoc_r (s t u : string) : (s +:+ t) +:+ u = s +:+ t +:+ u.
Proof.
  induction s as [|c s IH]; [reflexivity|].
  change (String c ((s +:+ t) +:+ u) = String c (s +:+ t +:+ u)).
  now rewrite IH.
Qed.

(** A token followed by nothing, or by whitespace, is the first token. *)
Lemma split_whitespace_token_tail t tail :
  is_token t = true -> starts_blank tail = true ->
  Py.split_whitespace (t +:+ tail) = t :: Py.split_whitespace tail.
Proof.
  intros Ht Hb. destruct tail as [|c r].
  - rewrite append_empty_r. now apply split_whitespace_token.
  - apply andb_true_iff in Ht as [Hne Hfree]. simpl in Hb.
    unfold Py.split_whitespace.
    rewrite (fields_token_sep _ _ _ _ Hfree Hb). simpl. now rewrite Hne, Hb.
Qed.

Lemma parse_version_after_name name t tail :
  is_token name = true -> leading_digit name = false ->
  is_token t = true -> leading_digit t = true ->
  free_of (Ascii.eqb "-") t = true ->
  starts_blank tail = true ->
  parse_version (name +:+ " " +:+ t +:+ tail)
  = match int_each (Py.split "." t) with
    | inl e => inl e
    | inr version => inr (Some version)
    end.
Proof.
  intros Hn Hnd Ht Hd Hh Hb. unfold parse_version.
  rewrite (split_whitespace_skip _ _ Hn), (split_whitespace_token_tail _ _ Ht Hb).
  apply andb_true_iff in Hn as [Hne _]. apply andb_true_iff in Ht as [Hte _].
  rewrite (first_digit_token_cons _ _ Hne), Hnd.
  rewrite (first_digit_token_cons _ _ Hte), Hd.
  unfold Py.split. now rewrite (fields_clean _ _ Hh).
Qed.

(** The three numbers of a version, written with dots. *)
Lemma dotted_token p a b c :
  0 <= a -> 0 <= b -> 0 <= c ->
  (forall ch, Py.isdecimal ch = true -> p ch = false) -> p "."%char = false ->
  let t := Py.fmt_d a +:+ "." +:+ Py.fmt_d b +:+ "." +:+ Py.fmt_d c in
  free_of p t = true /\ Py.nonempty t = true /\ leading_digit t = true.
Proof.
  intros Ha Hb Hc Hp Hdot t. subst t.
  destruct (fmt_d_uint a Ha) as (da & Hda & -> & _).
  destruct (fmt_d_uint b Hb) as (db & Hdb & -> & _).
  destruct (fmt_d_uint c Hc) as (dc & Hdc & -> & _).
  destruct (digits_leading da Hda) as [Hne Hld].
  split; [|split].
  - rewrite !free_of_app, !(digits_free p _ Hp).
    change (free_of p ".") with (negb (p "."%char) && true).
    now rewrite Hdot.
  - now apply nonempty_append.
  - now rewrite leading_digit_append.
Qed.

Lemma split_dotted a b c :
  0 <= a -> 0 <= b -> 0 <= c ->
  Py.split "." (Py.fmt_d a +:+ "." +:+ Py.fmt_d b +:+ "." +:+ Py.fmt_d c)
  = [Py.fmt_d a; Py.fmt_d b; Py.fmt_d c].
Proof.
  intros Ha Hb Hc.
  assert (Hfree : forall n, 0 <= n -> free_of (Ascii.eqb ".") (Py.fmt_d n) = true).
  { intros n Hn. destruct (fmt_d_uint n Hn) as (d & _ & -> & _).
    apply digits_free. intros ch Hch. apply (decimal_not_separator ch Hch). }
  unfold Py.split.
  change ("." +:+ Py.fmt_d b +:+ "." +:+ Py.fmt_d c)
    with (String "." (Py.fmt_d b +:+ String "." (Py.fmt_d c))).
  rewrite (fields_token_sep _ _ "." _ (Hfree a Ha) eq_refl).
  rewrite (fields_token_sep _ _ "." _ (Hfree b Hb) eq_refl).
  now rewrite (fields_clean _ _ (Hfree c Hc)).
Qed.

Lemma parse_version_tail t tail :
  is_token t = true -> leading_digit t = true -> starts_blank tail = true ->
  parse_version (t +:+ tail) = parse_version t.
Proof.
  intros Ht Hd Hb. unfold parse_version.
  rewrite (split_whitespace_token_tail _ _ Ht Hb), (split_whitespace_token _ Ht).
  apply andb_true_iff in Ht as [Hne _].
  now rewrite !(first_digit_token_cons _ _ Hne), Hd.
Qed.

Lemma fmt_d_free p n :
  0 <= n -> (forall ch, Py.isdecimal ch = true -> p ch = false) ->
  free_of p (Py.fmt_d n) = true.
Proof.
  intros Hn Hp. destruct (fmt_d_uint n Hn) as (d & _ & -> & _).
  now apply digits_free.
Qed.

Lemma fmt_d_leading n :
  0 <= n ->
  Py.nonempty (Py.fmt_d n) = true /\ leading_digit (Py.fmt_d n) = true.
Proof.
  intros Hn. destruct (fmt_d_uint n Hn) as (d & Hd & -> & _).
  now apply digits_leading.
Qed.

Lemma dotted_cons n m rest :
  dotted (n :: m :: rest) = Py.fmt_d n +:+ String "." (dotted (m :: rest)).
Proof. reflexivity. Qed.

Lemma dotted_free p ns :
  Forall (fun n => 0 <= n < 10 ^ 4300) ns ->
  (forall ch, Py.isdecimal ch = true -> p ch = false) -> p "."%char = false ->
  free_of p (dotted ns) = true.
Proof.
  intros Hns Hp Hdot. induction Hns as [|n ns [Hn _] Hns IH]; [reflexivity|].
  destruct ns as [|m rest]; [now apply fmt_d_free|].
  rewrite dotted_cons, free_of_app, free_of_cons, IH, Hdot.
  now rewrite (fmt_d_free p n Hn Hp).
Qed.

Lemma dotted_leading ns :
  Forall (fun n => 0 <= n < 10 ^ 4300) ns -> ns <> [] ->
  Py.nonempty (dotted ns) = true /\ leading_digit (dotted ns) = true.
Proof.
  intros Hns Hne. destruct Hns as [|n ns [Hn _] Hns]; [done|].
  destruct (fmt_d_leading n Hn) as [H1 H2].
  destruct ns as [|m rest]; [now split|].
  rewrite dotted_cons. split; [now apply nonempty_append|].
  now rewrite leading_digit_append.
Qed.

Lemma split_dotted_list ns :
  Forall (fun n => 0 <= n < 10 ^ 4300) ns -> ns <> [] ->
  Py.split "." (dotted ns) = Py.fmt_d <$> ns.
Proof.
  intros Hns Hne. unfold Py.split.
  induction Hns as [|n ns [Hn _] Hns IH]; [done|].
  assert (Hfree : free_of (Ascii.eqb ".") (Py.fmt_d n) = true)
    by (apply fmt_d_free; [exact Hn|];
        intros ch Hch; apply (decimal_not_separator ch Hch)).
  destruct ns as [|m rest];
    [change (dotted [n]) with (Py.fmt_d n);
     now rewrite (fields_clean _ _ Hfree)|].
  rewrite dotted_cons, (fields_token_sep _ _ "." _ Hfree eq_refl).
  now rewrite IH.
Qed.

Lemma int_each_fmt_d ns :
  Forall (fun n => 0 <= n < 10 ^ 4300) ns ->
  int_each (Py.fmt_d <$> ns) = inr ns.
Proof.
  induction 1 as [|n ns Hn Hns IH]; [reflexivity|].
  cbn [fmap list_fmap int_each]. now rewrite (int_fmt_d n Hn), IH.
Qed.

Lemma int_each_not_int parts part :
  In part parts -> Py.int part = None -> int_each parts = inl ValueError.
Proof.
  intros Hin Hnone. induction parts as [|n parts IH]; [destruct Hin|].
  simpl. destruct (Py.int n) as [z|] eqn:Hn; [|reflexivity].
  destruct Hin as [->|Hin]; [congruence|]. now rewrite (IH Hin).
Qed.

(** C2: [parse_version] reads (1, 6, 0) from
    ["autopep8 1.6.0 (pycodestyle: 2.9.1)"], and also from ["1.6.0-beta"], alone
    or inside such a line, and [autopep8_ensure_version] returns that tuple;
    it reads other numbers as they are written.  In general: a first token
    that does not start with a digit is passed over; a token that starts
    with a digit is taken, whatever follows it after whitespace, with what
    follows a hyphen dropped; and the token is read as its dot-separated
    fields, each converted by [int]: numbers written in decimal and joined
    by dots are read back as those numbers, and a field that is no integer
    gives [ValueError]. *)
Theorem version_parsing :
  parse_version "autopep8 1.6.0 (pycodestyle: 2.9.1)" = inr (Some [1; 6; 0])
  /\ parse_version "1.6.0-beta" = inr (Some [1; 6; 0])
  /\ parse_version "autopep8 1.6.0-beta (pycodestyle: 2.9.1)"
     = inr (Some [1; 6; 0])
  /\ fst (autopep8_ensure_version
            (posix_host "autopep8 1.6.0 (pycodestyle: 2.9.1)" EmptyString)
            "autopep8" initial_state)
     = Ret (Some [1; 6; 0])
  /\ (forall w rest,
        is_token w = true -> leading_digit w = false ->
        parse_version (w +:+ " " +:+ rest) = parse_version rest)
  /\ (forall t suffix,
        is_token t = true -> leading_digit t = true ->
        free_of (Ascii.eqb "-") t = true ->
        parse_version (t +:+ "-" +:+ suffix) = parse_version t)
  /\ (forall t,
        is_token t = true -> leading_digit t = true ->
        free_of (Ascii.eqb "-") t = true ->
        parse_version t
        = match int_each (Py.split "." t) with
          | inl e => inl e
          | inr version => inr (Some version)
          end)
  /\ parse_version "autopep8 2.0.4 (pycodestyle: 2.11.0)" = inr (Some [2; 0; 4])
  /\ parse_version "autopep8 1.10.12-rc1" = inr (Some [1; 10; 12])
  /\ parse_version "autopep8 1.6.0rc1" = inl ValueError
  /\ (forall t tail,
        is_token t = true -> leading_digit t = true ->
        starts_blank tail = true ->
        parse_version (t +:+ tail) = parse_version t)
  /\ (forall ns,
        ns <> [] -> Forall (fun n => 0 <= n < 10 ^ 4300) ns ->
        parse_version (dotted ns) = inr (Some ns))
  /\ (forall t part,
        is_token t = true -> leading_digit t = true ->
        free_of (Ascii.eqb "-") t = true ->
        In part (Py.split "." t) -> Py.int part = None ->
        parse_version t = inl ValueError).
Proof.
  do 4 (split; [reflexivity|]). split; [|split; [|split]].
  - intros w rest Hw Hd. unfold parse_version.
    rewrite (split_whitespace_skip _ _ Hw).
    apply andb_true_iff in Hw as [Hne _].
    now rewrite (first_digit_token_cons _ _ Hne), Hd.
  - intros t suffix Ht Hd Hh.
    now rewrite parse_version_hyphen, parse_version_token.
  - intros t Ht Hd Hh. now apply parse_version_token.
  - do 3 (split; [reflexivity|]). split; [|split].
    + intros t tail Ht Hd Hb. now apply parse_version_tail.
    + intros ns Hne Hns.
      destruct (dotted_leading ns Hns Hne) as [Hnonempty Hlead].
      rewrite parse_version_token.
      * now rewrite (split_dotted_list ns Hns Hne), (int_each_fmt_d ns Hns).
      * unfold is_token. rewrite Hnonempty. simpl.
        apply (dotted_free _ ns Hns); [|reflexivity].
        intros ch Hch. apply (decimal_not_separator ch Hch).
      * exact Hlead.
      * apply (dotted_free _ ns Hns); [|reflexivity].
        intros ch Hch. apply (decimal_not_separator ch Hch).
    + intros t part Ht Hd Hh Hin Hnone.
      rewrite (parse_version_token _ Ht Hd Hh).
      now rewrite (int_each_not_int _ _ Hin Hnone).
Qed.

Lemma version_parsing_witness :
  parse_version ("autopep8" +:+ " " +:+ "1.6.0-beta") = parse_version "1.6.0-beta"
  /\ parse_version ("1.6.0" +:+ "-" +:+ "beta") = parse_version "1.6.0"
  /\ parse_version "1.6.0" = inr (Some [1; 6; 0])
  /\ parse_version ("2.0.4" +:+ " (pycodestyle: 2.11.0)") = parse_version "2.0.4"
  /\ parse_version (dotted [2; 0; 4]) = inr (Some [2; 0; 4])
  /\ parse_version "1.6.x" = inl ValueError.
Proof.
  destruct version_parsing
    as (_ & _ & _ & _ & Hskip & Hhyphen & Hdots & _ & _ & _
        & Htail & Hints & Herr).
  assert (H : forall n, 0 <= n < 5 -> 0 <= n < 10 ^ 4300).
  { intros n [H0 H5]. split; [exact H0|].
    apply Z.lt_le_trans with (10 ^ 1); [lia|].
    apply Z.pow_le_mono_r; lia. }
  split; [|split; [|split; [|split; [|split]]]].
  - apply Hskip; reflexivity.
  - apply Hhyphen; reflexivity.
  - rewrite Hdots; reflexivity.
  - apply Htail; reflexivity.
  - apply Hints; [discriminate|]. repeat constructor; apply H; lia.
  - apply (Herr "1.6.x" "x"); try reflexivity. simpl. tauto.
Defined.

(** X1: a version line made of a name that does not start with a digit, a
    blank, three numbers joined by dots, and then nothing or whitespace
    and any text, is parsed to those three numbers.  (The numbers are
    below 10^4300, the longest that [int] accepts in every interpreter.) *)
Theorem parse_version_dotted (name tail : string) (a b c : Z) :
  is_token name = true -> leading_digit name = false ->
  starts_blank tail = true ->
  0 <= a < 10 ^ 4300 -> 0 <= b < 10 ^ 4300 -> 0 <= c < 10 ^ 4300 ->
  parse_version
    (name +:+ " " +:+ (Py.fmt_d a +:+ "." +:+ Py.fmt_d b +:+ "." +:+ Py.fmt_d c)
     +:+ tail)
  = inr (Some [a; b; c]).
Proof.
  intros Hn Hnd Hb Habound Hbbound Hcbound.
  destruct Habound as [Ha Ha'], Hbbound as [Hb' Hb''], Hcbound as [Hc Hc'].
  destruct (dotted_token Py.isspace a b c Ha Hb' Hc) as (Hs & Hne & Hld);
    [intros ch Hch; apply (decimal_not_separator ch Hch)|reflexivity|].
  destruct (dotted_token (Ascii.eqb "-") a b c Ha Hb' Hc) as (Hh & _ & _);
    [intros ch Hch; apply (decimal_not_separator ch Hch)|reflexivity|].
  rewrite parse_version_after_name; try assumption.
  - rewrite (split_dotted a b c Ha Hb' Hc). simpl.
    now rewrite !int_fmt_d by (split; assumption).
  - unfold is_token. now rewrite Hne, Hs.
Qed.

Lemma parse_version_dotted_witness :
  (is_token "autopep8" = true /\ leading_digit "autopep8" = false
   /\ starts_blank " (pycodestyle: 2.11.0)" = true
   /\ 0 <= 2 < 10 ^ 4300 /\ 0 <= 0 < 10 ^ 4300 /\ 0 <= 4 < 10 ^ 4300)
  /\ parse_version "autopep8 2.0.4 (pycodestyle: 2.11.0)"
     = inr (Some [2; 0; 4]).
Proof.
  assert (H : forall n, 0 <= n < 5 -> 0 <= n < 10 ^ 4300).
  { intros n [H0 H5]. split; [exact H0|].
    apply Z.lt_le_trans with (10 ^ 1); [lia|].
    apply Z.pow_le_mono_r; lia. }
  split; [repeat split; try reflexivity; try (apply H; lia)|].
  apply (parse_version_dotted "autopep8" " (pycodestyle: 2.11.0)" 2 0 4);
    try reflexivity; apply H; lia.
Defined.

(** ** git's answer *)

Lemma source_files_from_git_result h ps co s :
  fst (source_files_from_git h ps co s)
  = match subprocess_check_output h (git_command ps co) with
    | inl e => Raise e
    | inr out =>
        match decode_each (Py.split "000" out) with
        | inl e => Raise e
        | inr files => Ret files
        end
    end.
Proof.
  unfold source_files_from_git, check_output, bind, emit, lift.
  destruct (subprocess_check_output h (git_command ps co)) as [e|out]; simpl;
    [reflexivity|].
  destruct (decode_each (Py.split "000" out)); reflexivity.
Qed.

(** [format_stage] in full: its result and its events. *)
Lemma format_stage_eq h args s :
  format_stage h args s
  = let git := Run GitQuery
                 (git_command (resolved_paths h args) (changed_only args)) in
    match fst (source_files_from_git h (resolved_paths h args)
                 (changed_only args) initial_state) with
    | Ret files =>
        match List.filter keep_file files with
        | [] => (Ret tt, log s [git])
        | fs =>
            let argv := format_command h (AUTOPEP8_FORMAT_CMD s) fs in
            (match subprocess_check_output h argv with
             | inl e => Raise e
             | inr _ => Ret tt
             end,
             log s [git; Run Format argv])
        end
    | Exit c => (Exit c, log s [git])
    | Raise e => (Raise e, log s [git])
    end.
Proof.
  unfold format_stage, bind. rewrite source_files_from_git_run. cbv zeta.
  destruct (fst (source_files_from_git h _ _ initial_state)) as [files|c|e];
    try reflexivity.
  destruct (List.filter keep_file files) as [|f fs]; [reflexivity|].
  unfold autopep8_format, check_output, bind, emit, lift,
    get_AUTOPEP8_FORMAT_CMD. simpl.
  destruct (subprocess_check_output h _); unfold raise, ret;
    now rewrite log_log.
Qed.

(** The run when the version check has passed, with the state in which
    [autopep8_ensure_version] left it. *)
Lemma main_run_inv h args :
  Forall not_format (events h args)
  \/ exists v s1,
       autopep8_ensure_version h (autopep8_command args) initial_state
       = (Ret (Some v), s1)
       /\ Py.tuple_lt v VERSION_MIN = false
       /\ run h args
          = format_stage h args
              (log s1 (warning_events v ++ announce_events h args)).
Proof.
  destruct (main_run_cases h args) as [H|(v & s1 & _ & Hrun)]; [now left|].
  destruct (autopep8_ensure_version h (autopep8_command args) initial_state)
    as [[[v'|]|c|e] s1'] eqn:E.
  - destruct (Py.tuple_lt v' VERSION_MIN) eqn:Hlt.
    + left. unfold events. rewrite (main_too_old _ _ _ _ E Hlt). simpl.
      pose proof (emits_initial not_format _
                    (detection_not_format h (autopep8_command args))) as Hf.
      rewrite E in Hf. apply Forall_app. split; [exact Hf|].
      now repeat constructor.
    + right. exists v', s1'. split; [reflexivity|]. split; [exact Hlt|].
      now apply main_version_ok.
  - left. unfold events. rewrite (main_undetected _ _ _ E). simpl.
    pose proof (emits_initial not_format _
                  (detection_not_format h (autopep8_command args))) as Hf.
    rewrite E in Hf. apply Forall_app. split; [exact Hf|].
    now repeat constructor.
  - left. unfold events, run, main. rewrite (bind_Exit _ _ _ _ _ E).
    pose proof (emits_initial not_format _
                  (detection_not_format h (autopep8_command args))) as Hf.
    now rewrite E in Hf.
  - left. unfold events, run, main. rewrite (bind_Raise _ _ _ _ _ E).
    pose proof (emits_initial not_format _
                  (detection_not_format h (autopep8_command args))) as Hf.
    now rewrite E in Hf.
Qed.

Lemma isascii_app s t : Py.isascii (s +:+ t) = Py.isascii s && Py.isascii t.
Proof.
  induction s as [|c s IH]; [reflexivity|].
  change (String c s +:+ t) with (String c (s +:+ t)). simpl.
  now rewrite IH, andb_assoc.
Qed.

(** Bytes that are not all ASCII do not decode, whatever the separator. *)
Lemma decode_each_not_ascii p out :
  (forall c, p c = true -> (Py.code c <? 128)%N = true) ->
  Py.isascii out = false ->
  decode_each (Py.fields p out) = inl UnicodeDecodeError.
Proof.
  intros Hp. induction out as [|c out IH]; [discriminate|].
  simpl. intros H. destruct (p c) eqn:Hc.
  - rewrite (Hp _ Hc) in H. simpl in H. simpl. now rewrite (IH H).
  - pose proof (fields_not_nil p out) as Hnil.
    destruct (Py.fields p out) as [|w ws]; [done|]. clear Hnil.
    simpl. unfold decode_ascii at 1. simpl.
    destruct (Py.code c <? 128)%N; [|reflexivity]. simpl in H |- *.
    specialize (IH H). simpl in IH. unfold decode_ascii in IH.
    destruct (Py.isascii w); [|reflexivity].
    destruct (decode_each ws); [|discriminate]. exact IH.
Qed.

Lemma decode_each_ascii l :
  forallb Py.isascii l = true -> decode_each l = inr l.
Proof.
  induction l as [|f l IH]; [reflexivity|]. simpl.
  intros H. apply andb_true_iff in H as [Hf Hl].
  unfold decode_ascii. now rewrite Hf, (IH Hl).
Qed.

(** The fields of a listing under [-z]: the names, then an empty one. *)
Lemma split_zlist names :
  forallb plain_name names = true ->
  Py.split "000" (zlist names) = names ++ [EmptyString].
Proof.
  unfold Py.split. induction names as [|n names IH]; [reflexivity|].
  simpl. intros H. apply andb_true_iff in H as [Hn Hs].
  apply andb_true_iff in Hn as [_ Hfree].
  change (NUL +:+ zlist names) with (String "000" (zlist names)).
  now rewrite (fields_token_sep _ _ "000" _ Hfree eq_refl), (IH Hs).
Qed.

Lemma plain_names_ascii names :
  forallb plain_name names = true ->
  forallb Py.isascii (names ++ [EmptyString]) = true.
Proof.
  induction names as [|n names IH]; [reflexivity|]. simpl.
  intros H. apply andb_true_iff in H as [Hn Hs].
  apply andb_true_iff in Hn as [Ha _]. now rewrite Ha, (IH Hs).
Qed.

Lemma filter_keep_file_listing names :
  List.filter keep_file (names ++ [EmptyString]) = List.filter keep_file names.
Proof. rewrite List.filter_app. simpl. apply app_nil_r. Qed.

Lemma run_after_check h args v :
  detected h args v -> Py.tuple_lt v VERSION_MIN = false ->
  exists s1,
    Forall not_format (trace s1)
    /\ run h args
       = format_stage h args
           (log s1 (warning_events v ++ announce_events h args)).
Proof.
  intros Hd Hlt. destruct (detected_run _ _ _ Hd) as (s1 & E & Hnf).
  exists s1. split; [exact Hnf|]. now apply main_version_ok.
Qed.

Lemma before_git_not_format s1 v h args g :
  Forall not_format (trace s1) ->
  Forall not_format
    (trace (log (log s1 (warning_events v ++ announce_events h args))
              [Run GitQuery g])).
Proof.
  intros H. simpl. rewrite !Forall_app.
  split; [split; [exact H|split]|now repeat constructor].
  - apply warning_events_not_format.
  - apply announce_events_not_format.
Qed.

(** X2: when the version check has passed and the git command cannot be
    run or fails, [main] ends in that exception, which nothing catches: the
    exit status is 1, the git query is the last thing the run did, and
    [autopep8_format] is not run. *)
Theorem git_failure_propagates (h : Host) (args : Args) (v : list Z) (e : exn) :
  detected h args v ->
  Py.tuple_lt v VERSION_MIN = false ->
  subprocess_check_output h
    (git_command (resolved_paths h args) (changed_only args)) = inl e ->
  fst (run h args) = Raise e
  /\ exit_status (fst (run h args)) = 1
  /\ ~ formatter_invoked h args
  /\ last (events h args)
     = Some (Run GitQuery
               (git_command (resolved_paths h args) (changed_only args))).
Proof.
  intros Hd Hlt Hgit. destruct (run_after_check _ _ _ Hd Hlt) as (s1 & Hnf & Hrun).
  rewrite format_stage_eq, source_files_from_git_result, Hgit in Hrun.
  cbv zeta in Hrun. unfold events. rewrite Hrun.
  split; [reflexivity|]. split; [reflexivity|]. split.
  - apply events_not_format_no_invocation. unfold events. rewrite Hrun.
    now apply before_git_not_format.
  - simpl. now rewrite last_snoc.
Qed.

Lemma git_failure_propagates_witness :
  let h := {| os_sep := "/"; sys_executable := "/usr/bin/python3";
              os_path_exists := fun _ => false;
              os_path_isfile := fun _ => false;
              subprocess_check_output := fun argv =>
                match argv with
                | ["autopep8"; "--version"] => inr "autopep8 1.6.0"
                | _ => inl CalledProcessError
                end;
              decode_utf8 := inr |} in
  (detected h no_arguments [1; 6; 0]
   /\ Py.tuple_lt [1; 6; 0] VERSION_MIN = false
   /\ subprocess_check_output h
        (git_command (resolved_paths h no_arguments)
           (changed_only no_arguments)) = inl CalledProcessError)
  /\ fst (run h no_arguments) = Raise CalledProcessError
  /\ exit_status (fst (run h no_arguments)) = 1
  /\ ~ formatter_invoked h no_arguments
  /\ last (events h no_arguments)
     = Some (Run GitQuery
               (git_command (resolved_paths h no_arguments)
                  (changed_only no_arguments))).
Proof.
  cbv zeta. split; [repeat split|].
  apply (git_failure_propagates _ no_arguments [1; 6; 0] CalledProcessError);
    reflexivity.
Defined.

(** X3: when the version check has passed and git's output has a byte
    above 127 anywhere, also in the name of a file that the filter would
    drop, [main] ends in a [UnicodeDecodeError] and [autopep8_format] is
    not run. *)
Theorem non_ascii_listing_raises (h : Host) (args : Args) (v : list Z)
    (out : string) :
  detected h args v ->
  Py.tuple_lt v VERSION_MIN = false ->
  subprocess_check_output h
    (git_command (resolved_paths h args) (changed_only args)) = inr out ->
  Py.isascii out = false ->
  fst (run h args) = Raise UnicodeDecodeError
  /\ ~ formatter_invoked h args.
Proof.
  intros Hd Hlt Hgit Hout.
  destruct (run_after_check _ _ _ Hd Hlt) as (s1 & Hnf & Hrun).
  rewrite format_stage_eq, source_files_from_git_result, Hgit in Hrun.
  unfold Py.split in Hrun.
  rewrite (decode_each_not_ascii _ out) in Hrun;
    [|intros c Hc; apply Ascii.eqb_eq in Hc; now subst c|exact Hout].
  cbv zeta in Hrun. unfold events. rewrite Hrun.
  split; [reflexivity|].
  apply events_not_format_no_invocation. unfold events. rewrite Hrun.
  now apply before_git_not_format.
Qed.

Lemma non_ascii_listing_raises_witness :
  let out := "a.py" +:+ NUL +:+ String "233" "t" +:+ ".txt" +:+ NUL in
  let h := posix_host "autopep8 1.6.0 (pycodestyle: 2.9.1)" out in
  (detected h no_arguments [1; 6; 0]
   /\ Py.tuple_lt [1; 6; 0] VERSION_MIN = false
   /\ subprocess_check_output h
        (git_command (resolved_paths h no_arguments)
           (changed_only no_arguments)) = inr out
   /\ Py.isascii out = false)
  /\ fst (run h no_arguments) = Raise UnicodeDecodeError
  /\ ~ formatter_invoked h no_arguments.
Proof.
  cbv zeta. split; [repeat split|].
  apply (non_ascii_listing_raises _ no_arguments [1; 6; 0]
           ("a.py" +:+ NUL +:+ String "233" "t" +:+ ".txt" +:+ NUL));
    reflexivity.
Defined.

(** X4: when git prints names under [-z] that are ASCII and hold no NUL,
    [source_files_from_git] returns them in order, unchanged, followed by
    one empty string (alone when git prints nothing), after the one git
    query. *)
Theorem source_files_from_git_listing (h : Host) (ps : list string)
    (co : bool) (names : list string) (s : state) :
  forallb plain_name names = true ->
  subprocess_check_output h (git_command ps co) = inr (zlist names) ->
  source_files_from_git h ps co s
  = (Ret (names ++ [EmptyString]), log s [Run GitQuery (git_command ps co)]).
Proof.
  intros Hn Hgit. rewrite source_files_from_git_run.
  rewrite source_files_from_git_result, Hgit, (split_zlist _ Hn).
  now rewrite (decode_each_ascii _ (plain_names_ascii _ Hn)).
Qed.

Lemma source_files_from_git_listing_witness :
  let names := ["a.py"; "b.c";
                "release/scripts/modules/rna_manual_reference.py"] in
  let h := posix_host "autopep8 1.6.0" sample_listing in
  (forallb plain_name names = true
   /\ subprocess_check_output h (git_command ["doc"] true) = inr (zlist names))
  /\ source_files_from_git h ["doc"] true initial_state
     = (Ret (names ++ [EmptyString]),
        log initial_state [Run GitQuery (git_command ["doc"] true)]).
Proof.
  cbv zeta. split; [split; reflexivity|].
  apply (source_files_from_git_listing
           (posix_host "autopep8 1.6.0" sample_listing) ["doc"] true
           ["a.py"; "b.c"; "release/scripts/modules/rna_manual_reference.py"]);
    reflexivity.
Defined.

(** ** The candidate that was checked *)

Lemma format_command_prefix h cmd files :
  format_command h cmd files
  = command_prefix h cmd ++ ["--recursive"; "--in-place"; "--jobs=0"] ++ files.
Proof.
  unfold format_command, command_prefix.
  destruct (Py.endswith cmd ".py"); reflexivity.
Qed.

(** What the loop of [autopep8_ensure_version] leaves: at most one query
    per candidate and, when it has a text, the candidate that printed it
    in the global. *)
Lemma version_output_loop_inv h arg flags s r s1 :
  version_output_loop h arg flags s = (r, s1) ->
  exists queries,
    trace s1 = trace s ++ queries
    /\ Forall is_query queries
    /\ (length queries <= length flags)%nat
    /\ match r with
       | Ret (Some text) =>
           let cmd := AUTOPEP8_FORMAT_CMD s1 in
           (cmd = arg /\ Py.nonempty arg && os_path_exists h arg = true
            \/ cmd = "autopep8")
           /\ In (Run VersionQuery (command_prefix h cmd ++ ["--version"]))
                queries
           /\ exists out,
                subprocess_check_output h (command_prefix h cmd ++ ["--version"])
                = inr out
                /\ decode_utf8 h out = inr text
       | _ => AUTOPEP8_FORMAT_CMD s1 = AUTOPEP8_FORMAT_CMD s
       end.
Proof.
  revert s. induction flags as [|is_default rest IH]; intros s E.
  - injection E as <- <-. exists []. simpl. rewrite app_nil_r.
    repeat split; [constructor|lia].
  - simpl in E.
    assert (Hskip : forall s' pre,
      version_output_loop h arg rest s' = (r, s1) ->
      trace s' = trace s ++ pre -> Forall is_query pre ->
      (length pre <= 1)%nat ->
      AUTOPEP8_FORMAT_CMD s' = AUTOPEP8_FORMAT_CMD s ->
      exists queries,
        trace s1 = trace s ++ queries
        /\ Forall is_query queries
        /\ (length queries <= S (length rest))%nat
        /\ match r with
           | Ret (Some text) =>
               let cmd := AUTOPEP8_FORMAT_CMD s1 in
               (cmd = arg /\ Py.nonempty arg && os_path_exists h arg = true
                \/ cmd = "autopep8")
               /\ In (Run VersionQuery (command_prefix h cmd ++ ["--version"]))
                    queries
               /\ exists out,
                    subprocess_check_output h
                      (command_prefix h cmd ++ ["--version"]) = inr out
                    /\ decode_utf8 h out = inr text
           | _ => AUTOPEP8_FORMAT_CMD s1 = AUTOPEP8_FORMAT_CMD s
           end).
    { intros s' pre E' Ht Hpre Hlen1 Hc.
      destruct (IH _ E') as (qs & Hqs & Hf & Hlen & Hr).
      exists (pre ++ qs).
      split; [now rewrite Hqs, Ht, app_assoc|].
      split; [apply Forall_app; now split|].
      split; [rewrite length_app; lia|].
      destruct r as [[text|]|c|e]; try congruence.
      destruct Hr as (Hcmd & Hin & Hout). split; [exact Hcmd|].
      split; [apply in_or_app; now right|exact Hout]. }
    destruct (is_default && negb (Py.nonempty _ && os_path_exists h _)) eqn:Hguard.
    + apply (Hskip s [] E); [now rewrite app_nil_r|constructor|simpl; lia|].
      reflexivity.
    + set (cmd := if is_default then arg else "autopep8") in *.
      assert (Hargv :
        (if Py.endswith cmd ".py" then [sys_executable h; cmd] else [cmd])
        ++ ["--version"] = command_prefix h cmd ++ ["--version"])
        by reflexivity.
      rewrite Hargv in E. unfold bind, emit in E.
      destruct (match subprocess_check_output h _ with
                | inl e => inl e | inr out => decode_utf8 h out end)
        as [e|text] eqn:Hq.
      * destruct e;
          try (injection E as <- <-;
               exists [Run VersionQuery (command_prefix h cmd ++ ["--version"])];
               simpl; repeat split; [now repeat constructor|lia]).
        apply (Hskip _ [Run VersionQuery
                          (command_prefix h cmd ++ ["--version"])] E);
          [reflexivity|now repeat constructor|simpl; lia|reflexivity].
      * unfold set_AUTOPEP8_FORMAT_CMD, ret in E. simpl in E.
        injection E as <- <-.
        exists [Run VersionQuery (command_prefix h cmd ++ ["--version"])].
        simpl. split; [reflexivity|]. split; [now repeat constructor|].
        split; [lia|]. split; [|split; [now left|]].
        -- subst cmd. destruct is_default; [left|now right].
           split; [reflexivity|]. simpl in Hguard.
           now apply negb_false_iff in Hguard.
        -- destruct (subprocess_check_output h _) as [e|out]; [discriminate|].
           now exists out.
Qed.

(** What [autopep8_ensure_version] adds to the loop: the line it prints
    when it returns a version, which then has three numbers or more. *)
Lemma ensure_version_inv h arg s r s2 :
  autopep8_ensure_version h arg s = (r, s2) ->
  exists r1 s1 prints,
    version_output_loop h arg [true; false] s = (r1, s1)
    /\ s2 = log s1 prints
    /\ match r with
       | Ret (Some v) =>
           exists text v0 v1 v2 rest,
             r1 = Ret (Some text)
             /\ parse_version text = inr (Some v)
             /\ v = v0 :: v1 :: v2 :: rest
             /\ prints = [Print ("Using " +:+ AUTOPEP8_FORMAT_CMD s1 +:+ " ("
                                 +:+ Py.fmt_d v0 +:+ "." +:+ Py.fmt_d v1 +:+ "."
                                 +:+ Py.fmt_d v2 +:+ ")...")]
       | _ => prints = []
       end.
Proof.
  unfold autopep8_ensure_version, bind. intros E.
  destruct (version_output_loop h arg [true; false] s) as [r1 s1].
  exists r1, s1.
  destruct r1 as [[text|]|c|e];
    try (injection E as <- <-; exists []; now rewrite log_nil).
  unfold lift in E. destruct (parse_version text) as [e|[t|]] eqn:Hp;
    try (injection E as <- <-; exists []; now rewrite log_nil).
  destruct t as [|v0 [|v1 [|v2 rest]]];
    try (injection E as <- <-; exists []; now rewrite log_nil).
  injection E as <- <-. eexists. split; [reflexivity|].
  split; [reflexivity|]. now exists text, v0, v1, v2, rest.
Qed.

(** With fewer than three numbers, the line cannot be printed. *)
Lemma ensure_version_short h arg s text s1 t :
  version_output_loop h arg [true; false] s = (Ret (Some text), s1) ->
  parse_version text = inr (Some t) ->
  (length t < 3)%nat ->
  autopep8_ensure_version h arg s = (Raise IndexError, s1).
Proof.
  intros E Hp Hlen. unfold autopep8_ensure_version.
  rewrite (bind_Ret _ _ _ _ _ E). unfold lift. rewrite Hp.
  destruct t as [|v0 [|v1 [|v2 rest]]]; try reflexivity. simpl in Hlen. lia.
Qed.

(** ** The formatter's arguments and its result *)

Lemma listed_zlist h args names :
  forallb plain_name names = true ->
  subprocess_check_output h
    (git_command (resolved_paths h args) (changed_only args))
  = inr (zlist names) ->
  listed h args (names ++ [EmptyString]).
Proof.
  intros Hn Hgit. unfold listed.
  rewrite source_files_from_git_result, Hgit, (split_zlist _ Hn).
  now rewrite (decode_each_ascii _ (plain_names_ascii _ Hn)).
Qed.

Lemma last_pair {A} (l : list A) a b : last (l ++ [a; b]) = Some b.
Proof.
  change [a; b] with ([a] ++ [b]). rewrite app_assoc. apply last_snoc.
Qed.

(** The events of a run that reaches the filter. *)
Lemma events_after_check h args v files :
  detected h args v -> Py.tuple_lt v VERSION_MIN = false ->
  listed h args files ->
  exists s1,
    Forall not_format (trace s1)
    /\ AUTOPEP8_FORMAT_CMD (snd (run h args)) = AUTOPEP8_FORMAT_CMD s1
    /\ run h args
       = let git := Run GitQuery
                      (git_command (resolved_paths h args) (changed_only args)) in
         let s := log s1 (warning_events v ++ announce_events h args) in
         match List.filter keep_file files with
         | [] => (Ret tt, log s [git])
         | fs =>
             let argv := format_command h (AUTOPEP8_FORMAT_CMD s1) fs in
             (match subprocess_check_output h argv with
              | inl e => Raise e
              | inr _ => Ret tt
              end,
              log s [git; Run Format argv])
         end.
Proof.
  intros Hd Hlt Hl. destruct (run_after_check _ _ _ Hd Hlt) as (s1 & Hnf & Hrun).
  exists s1. split; [exact Hnf|].
  rewrite format_stage_eq in Hrun. red in Hl. rewrite Hl in Hrun.
  cbv zeta in Hrun |- *. rewrite Hrun.
  destruct (List.filter keep_file files); split; reflexivity.
Qed.

(** X5: when the version check has passed and git prints plain names under
    [-z], [autopep8_format] is run exactly when one of the names ends in
    [.py] and is not the ignored file, and then on all such names, in
    git's order, and on nothing else. *)
Theorem formatter_gets_listed_py_files (h : Host) (args : Args) (v : list Z)
    (names : list string) :
  detected h args v ->
  Py.tuple_lt v VERSION_MIN = false ->
  forallb plain_name names = true ->
  subprocess_check_output h
    (git_command (resolved_paths h args) (changed_only args))
  = inr (zlist names) ->
  forall argv,
    In (Run Format argv) (events h args)
    <-> List.filter keep_file names <> []
        /\ argv = format_command h (AUTOPEP8_FORMAT_CMD (snd (run h args)))
                    (List.filter keep_file names).
Proof.
  intros Hd Hlt Hn Hgit argv.
  destruct (events_after_check _ _ _ _ Hd Hlt (listed_zlist _ _ _ Hn Hgit))
    as (s1 & Hnf & Hcmd & Hrun).
  rewrite Hcmd. unfold events. rewrite Hrun. cbv zeta.
  rewrite filter_keep_file_listing.
  destruct (List.filter keep_file names) as [|f fs]; simpl.
  - split; [|now intros [? _]]. intros Hin. exfalso.
    revert Hin. apply not_format_In.
    now apply (before_git_not_format s1 v h args).
  - split.
    + intros Hin. split; [discriminate|].
      apply in_app_or in Hin as [Hin|Hin].
      * exfalso. revert Hin. apply not_format_In.
        rewrite Forall_app. split; [exact Hnf|]. rewrite Forall_app.
        split; [apply warning_events_not_format|apply announce_events_not_format].
      * destruct Hin as [Hin|[Hin|[]]]; [discriminate|]. now injection Hin.
    + intros [_ ->]. apply in_or_app. right. right. now left.
Qed.

Lemma formatter_gets_listed_py_files_witness :
  let names := ["a.py"; "b.c";
                "release/scripts/modules/rna_manual_reference.py"; "c/d.py"] in
  let h := posix_host "autopep8 1.6.0 (pycodestyle: 2.9.1)" (zlist names) in
  (detected h no_arguments [1; 6; 0]
   /\ Py.tuple_lt [1; 6; 0] VERSION_MIN = false
   /\ forallb plain_name names = true
   /\ subprocess_check_output h
        (git_command (resolved_paths h no_arguments)
           (changed_only no_arguments)) = inr (zlist names))
  /\ (In (Run Format ["autopep8"; "--recursive"; "--in-place"; "--jobs=0";
                      "a.py"; "c/d.py"])
        (events h no_arguments)
      <-> List.filter keep_file names <> []
          /\ ["autopep8"; "--recursive"; "--in-place"; "--jobs=0";
              "a.py"; "c/d.py"]
             = format_command h (AUTOPEP8_FORMAT_CMD (snd (run h no_arguments)))
                 (List.filter keep_file names)).
Proof.
  cbv zeta. split; [repeat split|].
  apply (formatter_gets_listed_py_files _ no_arguments [1; 6; 0]
           ["a.py"; "b.c"; "release/scripts/modules/rna_manual_reference.py";
            "c/d.py"]); reflexivity.
Defined.

(** X6: when [autopep8_format] is run, [main] returns if the formatter
    succeeds (exit status 0) and ends in the formatter's exception if it
    fails (exit status 1); either way the formatter is the last thing the
    run did. *)
Theorem formatter_result_propagates (h : Host) (args : Args) (v : list Z)
    (files : list string) :
  detected h args v ->
  Py.tuple_lt v VERSION_MIN = false ->
  listed h args files ->
  List.filter keep_file files <> [] ->
  let argv := format_command h (AUTOPEP8_FORMAT_CMD (snd (run h args)))
                (List.filter keep_file files) in
  fst (run h args)
  = match subprocess_check_output h argv with
    | inl e => Raise e
    | inr _ => Ret tt
    end
  /\ exit_status (fst (run h args))
     = match subprocess_check_output h argv with
       | inl _ => 1
       | inr _ => 0
       end
  /\ last (events h args) = Some (Run Format argv).
Proof.
  intros Hd Hlt Hl Hne.
  destruct (events_after_check _ _ _ _ Hd Hlt Hl) as (s1 & _ & Hcmd & Hrun).
  cbv zeta. rewrite Hcmd. unfold events. rewrite Hrun. cbv zeta.
  destruct (List.filter keep_file files) as [|f fs]; [done|]. simpl.
  split; [reflexivity|]. split.
  - now destruct (subprocess_check_output h _).
  - apply last_pair.
Qed.

Lemma formatter_result_propagates_witness :
  let h := {| os_sep := "/"; sys_executable := "/usr/bin/python3";
              os_path_exists := fun _ => false;
              os_path_isfile := fun _ => false;
              subprocess_check_output := fun argv =>
                match argv with
                | ["autopep8"; "--version"] => inr "autopep8 1.6.0"
                | "git" :: _ => inr sample_listing
                | _ => inl CalledProcessError
                end;
              decode_utf8 := inr |} in
  let files := ["a.py"; "b.c";
                "release/scripts/modules/rna_manual_reference.py"; ""] in
  (detected h no_arguments [1; 6; 0]
   /\ Py.tuple_lt [1; 6; 0] VERSION_MIN = false
   /\ listed h no_arguments files
   /\ List.filter keep_file files <> [])
  /\ fst (run h no_arguments) = Raise CalledProcessError
  /\ exit_status (fst (run h no_arguments)) = 1
  /\ last (events h no_arguments)
     = Some (Run Format ["autopep8"; "--recursive"; "--in-place"; "--jobs=0";
                         "a.py"]).
Proof.
  cbv zeta. split; [repeat split; discriminate|].
  match goal with
  | |- fst (run ?h _) = _ /\ _ =>
      apply (formatter_result_propagates h no_arguments [1; 6; 0]
               ["a.py"; "b.c";
                "release/scripts/modules/rna_manual_reference.py"; ""])
  end; try reflexivity. discriminate.
Defined.

(** ** Which command is run, and when *)

Lemma detection_trace h arg r s2 :
  autopep8_ensure_version h arg initial_state = (r, s2) ->
  Forall not_format (trace s2) /\ Forall not_git_nor_format (trace s2).
Proof.
  intros E. split.
  - pose proof (emits_initial not_format _ (detection_not_format h arg)) as H.
    now rewrite E in H.
  - pose proof (emits_initial not_git_nor_format
                  (autopep8_ensure_version h arg)) as H.
    rewrite E in H. apply H.
    apply emits_autopep8_ensure_version; intros; exact I.
Qed.

(** X7: the command line that [autopep8_format] runs starts like a
    [--version] query that the run has made and that succeeded, for the
    command given (which then exists on disk) or for [autopep8]: the
    formatter that is run is the one whose version was checked. *)
Theorem formatter_runs_checked_command (h : Host) (args : Args)
    (argv : list string) :
  In (Run Format argv) (events h args) ->
  exists cmd files out,
    (cmd = autopep8_command args
     /\ Py.nonempty cmd && os_path_exists h cmd = true
     \/ cmd = "autopep8")
    /\ In (Run VersionQuery (command_prefix h cmd ++ ["--version"]))
          (events h args)
    /\ subprocess_check_output h (command_prefix h cmd ++ ["--version"])
       = inr out
    /\ argv = command_prefix h cmd
              ++ ["--recursive"; "--in-place"; "--jobs=0"] ++ files.
Proof.
  intros Hin. destruct (main_run_inv h args) as [Hnf|(v & s1 & E & Hlt & Hrun)].
  - now apply not_format_In in Hin.
  - destruct (detection_trace _ _ _ _ E) as [Hnf _].
    destruct (ensure_version_inv _ _ _ _ _ E)
      as (r1 & s0 & prints & Eloop & -> & text & v0 & v1 & v2 & rest
          & -> & _ & _ & _).
    destruct (version_output_loop_inv _ _ _ _ _ _ Eloop)
      as (queries & Hq & _ & _ & Hcmd & Hquery & out & Hout & _).
    cbv zeta in Hcmd, Hquery, Hout. simpl in Hq.
    rewrite format_stage_eq in Hrun. cbv zeta in Hrun.
    unfold events in *. rewrite Hrun in *.
    destruct (fst (source_files_from_git h _ _ initial_state)) as [files|c|e];
      try (exfalso; revert Hin; apply not_format_In;
           now apply before_git_not_format).
    destruct (List.filter keep_file files) as [|f fs];
      [exfalso; revert Hin; apply not_format_In;
       now apply before_git_not_format|].
    simpl in Hin |- *.
    exists (AUTOPEP8_FORMAT_CMD s0), (f :: fs), out.
    split; [destruct Hcmd as [[Hc Hg]|Hc];
            [left; split; [exact Hc|now rewrite Hc]|now right]|].
    split; [|split; [exact Hout|]].
    + rewrite Hq. simpl. rewrite <- !app_assoc. apply in_or_app. now left.
    + apply in_app_or in Hin as [Hin|Hin].
      * exfalso. revert Hin. apply not_format_In. rewrite Forall_app.
        split; [exact Hnf|]. rewrite Forall_app.
        split; [apply warning_events_not_format|apply announce_events_not_format].
      * destruct Hin as [Hin|[Hin|[]]]; [discriminate|].
        injection Hin as <-. apply format_command_prefix.
Qed.

Lemma formatter_runs_checked_command_witness :
  let h := {| os_sep := "/"; sys_executable := "/usr/bin/python3";
              os_path_exists := fun f => String.eqb f "lib/autopep8.py";
              os_path_isfile := fun _ => false;
              subprocess_check_output := fun argv =>
                match argv with
                | ["/usr/bin/python3"; "lib/autopep8.py"; "--version"] =>
                    inr "autopep8 1.6.0"
                | "git" :: _ => inr sample_listing
                | _ => inr EmptyString
                end;
              decode_utf8 := inr |} in
  let args := {| changed_only := false;
                 autopep8_command := "lib/autopep8.py"; paths := [] |} in
  let argv := ["/usr/bin/python3"; "lib/autopep8.py"; "--recursive";
               "--in-place"; "--jobs=0"; "a.py"] in
  In (Run Format argv) (events h args)
  /\ exists cmd files out,
       (cmd = autopep8_command args
        /\ Py.nonempty cmd && os_path_exists h cmd = true
        \/ cmd = "autopep8")
       /\ In (Run VersionQuery (command_prefix h cmd ++ ["--version"]))
             (events h args)
       /\ subprocess_check_output h (command_prefix h cmd ++ ["--version"])
          = inr out
       /\ argv = command_prefix h cmd
                 ++ ["--recursive"; "--in-place"; "--jobs=0"] ++ files.
Proof.
  cbv zeta.
  assert (Hin : In (Run Format ["/usr/bin/python3"; "lib/autopep8.py";
                                "--recursive"; "--in-place"; "--jobs=0"; "a.py"])
                  (events
                     {| os_sep := "/"; sys_executable := "/usr/bin/python3";
                        os_path_exists := fun f => String.eqb f "lib/autopep8.py";
                        os_path_isfile := fun _ => false;
                        subprocess_check_output := fun argv =>
                          match argv with
                          | ["/usr/bin/python3"; "lib/autopep8.py"; "--version"] =>
                              inr "autopep8 1.6.0"
                          | "git" :: _ => inr sample_listing
                          | _ => inr EmptyString
                          end;
                        decode_utf8 := inr |}
                     {| changed_only := false;
                        autopep8_command := "lib/autopep8.py"; paths := [] |}))
    by (vm_compute; tauto).
  split; [exact Hin|].
  exact (formatter_runs_checked_command _ _ _ Hin).
Defined.

(** X8: when [autopep8_format] is run, it is run once, as the last thing
    the run does, right after the one git query; before that the run has
    only queried versions and printed. *)
Theorem formatter_runs_once_last (h : Host) (args : Args)
    (argv : list string) :
  In (Run Format argv) (events h args) ->
  exists before,
    events h args
    = before
      ++ [Run GitQuery (git_command (resolved_paths h args) (changed_only args));
          Run Format argv]
    /\ Forall not_git_nor_format before.
Proof.
  intros Hin. destruct (main_run_inv h args) as [Hnf|(v & s1 & E & Hlt & Hrun)].
  - now apply not_format_In in Hin.
  - destruct (detection_trace _ _ _ _ E) as [Hnf Hng].
    rewrite format_stage_eq in Hrun. cbv zeta in Hrun.
    unfold events in *. rewrite Hrun in *.
    destruct (fst (source_files_from_git h _ _ initial_state)) as [files|c|e];
      try (exfalso; revert Hin; apply not_format_In;
           now apply before_git_not_format).
    destruct (List.filter keep_file files) as [|f fs];
      [exfalso; revert Hin; apply not_format_In;
       now apply before_git_not_format|].
    simpl in Hin |- *.
    apply in_app_or in Hin as [Hin|Hin].
    + exfalso. revert Hin. apply not_format_In. rewrite Forall_app.
      split; [exact Hnf|]. rewrite Forall_app.
      split; [apply warning_events_not_format|apply announce_events_not_format].
    + destruct Hin as [Hin|[Hin|[]]]; [discriminate|]. injection Hin as <-.
      eexists. split; [reflexivity|].
      rewrite !Forall_app. split; [exact Hng|split].
      * unfold warning_events. destruct (Py.tuple_gt _ _); now repeat constructor.
      * constructor; [exact I|]. apply List.Forall_forall. intros e He.
        apply List.in_map_iff in He as (p & <- & _). exact I.
Qed.

Lemma formatter_runs_once_last_witness :
  let h := posix_host "autopep8 1.6.0 (pycodestyle: 2.9.1)" sample_listing in
  let argv := ["autopep8"; "--recursive"; "--in-place"; "--jobs=0"; "a.py"] in
  In (Run Format argv) (events h no_arguments)
  /\ exists before,
       events h no_arguments
       = before
         ++ [Run GitQuery
               (git_command (resolved_paths h no_arguments)
                  (changed_only no_arguments));
             Run Format argv]
       /\ Forall not_git_nor_format before.
Proof.
  cbv zeta. split; [exact sample_run_events|].
  exact (formatter_runs_once_last _ _ _ sample_run_events).
Defined.

(** The loop when the command given is empty or not on disk: one query,
    for [autopep8]. *)
Lemma fallback_loop_eq h arg s :
  Py.nonempty arg && os_path_exists h arg = false ->
  version_output_loop h arg [true; false] s
  = let q := Run VersionQuery ["autopep8"; "--version"] in
    match
      match subprocess_check_output h ["autopep8"; "--version"] with
      | inl e => inl e
      | inr out => decode_utf8 h out
      end
    with
    | inl FileNotFoundError => (Ret None, log s [q])
    | inl e => (Raise e, log s [q])
    | inr text =>
        (Ret (Some text),
         {| AUTOPEP8_FORMAT_CMD := "autopep8"; trace := trace s ++ [q] |})
    end.
Proof.
  intros Hg. cbn [version_output_loop]. rewrite Hg. cbn [andb negb].
  change (Py.endswith "autopep8" ".py") with false. cbv iota. cbv zeta.
  change ([ "autopep8" ] ++ ["--version"]) with ["autopep8"; "--version"].
  unfold bind, emit.
  destruct (match subprocess_check_output h ["autopep8"; "--version"] with
            | inl e => inl e | inr out => decode_utf8 h out end) as [e|text];
    [destruct e|]; reflexivity.
Qed.

(** A run is the detection followed by events that are no version query;
    a formatter among them is run with the global as the detection left
    it. *)
Lemma main_trace_split h args :
  exists r s2 rest,
    autopep8_ensure_version h (autopep8_command args) initial_state = (r, s2)
    /\ events h args = trace s2 ++ rest
    /\ Forall (fun e => ~ is_query e) rest
    /\ forall argv,
         In (Run Format argv) rest ->
         exists files, argv = format_command h (AUTOPEP8_FORMAT_CMD s2) files.
Proof.
  destruct (autopep8_ensure_version h (autopep8_command args) initial_state)
    as [r s2] eqn:E. exists r, s2.
  assert (Hprint : forall l,
            Forall is_print l ->
            Forall (fun e => ~ is_query e) l
            /\ forall argv, ~ In (Run Format argv) l).
  { intros l Hl. rewrite List.Forall_forall in Hl. split.
    - apply List.Forall_forall. intros e He. specialize (Hl _ He).
      now destruct e as [|[]].
    - intros argv Hin. exact (Hl _ Hin). }
  destruct r as [[v|]|c|e].
  - destruct (Py.tuple_lt v VERSION_MIN) eqn:Hlt.
    + eexists. unfold events. rewrite (main_too_old _ _ _ _ E Hlt). simpl.
      split; [reflexivity|]. split; [reflexivity|].
      destruct (Hprint [Print ("Version of autopep8 is too old: "
                               +:+ Py.repr_tuple v +:+ " < "
                               +:+ Py.repr_tuple VERSION_MIN)])
        as [H1 H2]; [now repeat constructor|].
      split; [exact H1|]. intros argv Hin. now apply H2 in Hin.
    + unfold events. rewrite (main_version_ok _ _ _ _ E Hlt), format_stage_eq.
      cbv zeta.
      destruct (Hprint (warning_events v ++ announce_events h args))
        as [H1 H2].
      { apply Forall_app. split.
        - unfold warning_events. destruct (Py.tuple_gt _ _); now repeat constructor.
        - constructor; [exact I|]. apply List.Forall_forall. intros e He.
          apply List.in_map_iff in He as (p & <- & _). exact I. }
      destruct (fst (source_files_from_git h _ _ initial_state)) as [files|c|e];
        [destruct (List.filter keep_file files) as [|f fs]| |];
        simpl; rewrite <- app_assoc; eexists;
        (split; [reflexivity|]); (split; [reflexivity|]);
        (split; [apply Forall_app; split; [exact H1|];
                 repeat constructor; tauto|]);
        intros argv Hin; apply in_app_or in Hin as [Hin|Hin];
        try (now apply H2 in Hin);
        try (destruct Hin as [Hin|[]]; discriminate).
      destruct Hin as [Hin|[Hin|[]]]; [discriminate|].
      injection Hin as <-. now exists (f :: fs).
  - eexists. unfold events. rewrite (main_undetected _ _ _ E). simpl.
    split; [reflexivity|]. split; [reflexivity|].
    destruct (Hprint [Print "Unable to detect 'autopep8 --version'"])
      as [H1 H2]; [now repeat constructor|].
    split; [exact H1|]. intros argv Hin. now apply H2 in Hin.
  - exists []. unfold events, run, main. rewrite (bind_Exit _ _ _ _ _ E).
    simpl. rewrite app_nil_r. repeat split; [constructor|now intros ? []].
  - exists []. unfold events, run, main. rewrite (bind_Raise _ _ _ _ _ E).
    simpl. rewrite app_nil_r. repeat split; [constructor|now intros ? []].
Qed.

(** A run is the detection, then printed lines, then nothing more, or the
    git query, or the git query and the formatter. *)
Lemma main_events_shape h args :
  exists r s2 prints tail,
    autopep8_ensure_version h (autopep8_command args) initial_state = (r, s2)
    /\ events h args = trace s2 ++ prints ++ tail
    /\ Forall is_print prints
    /\ let git := Run GitQuery
                    (git_command (resolved_paths h args) (changed_only args)) in
       tail = [] \/ tail = [git]
       \/ exists files,
            tail = [git;
                    Run Format
                      (format_command h (AUTOPEP8_FORMAT_CMD s2) files)].
Proof.
  destruct (autopep8_ensure_version h (autopep8_command args) initial_state)
    as [r s2] eqn:E. exists r, s2. cbv zeta.
  destruct r as [[v|]|c|e].
  - destruct (Py.tuple_lt v VERSION_MIN) eqn:Hlt.
    + eexists _, []. unfold events. rewrite (main_too_old _ _ _ _ E Hlt). simpl.
      split; [reflexivity|]. split; [now rewrite app_nil_r|].
      split; [now repeat constructor|now left].
    + assert (Hprints : Forall is_print
                          (warning_events v ++ announce_events h args)).
      { apply Forall_app. split.
        - unfold warning_events. destruct (Py.tuple_gt _ _); now repeat constructor.
        - constructor; [exact I|]. apply List.Forall_forall. intros e He.
          apply List.in_map_iff in He as (p & <- & _). exact I. }
      exists (warning_events v ++ announce_events h args).
      unfold events. rewrite (main_version_ok _ _ _ _ E Hlt), format_stage_eq.
      cbv zeta.
      destruct (fst (source_files_from_git h _ _ initial_state)) as [files|c|e];
        [destruct (List.filter keep_file files) as [|f fs]| |];
        eexists; simpl; rewrite <- app_assoc;
        (split; [reflexivity|]); (split; [reflexivity|]);
        (split; [exact Hprints|]); eauto.
  - eexists _, []. unfold events. rewrite (main_undetected _ _ _ E). simpl.
    split; [reflexivity|]. split; [now rewrite app_nil_r|].
    split; [now repeat constructor|now left].
  - exists [], []. unfold events, run, main. rewrite (bind_Exit _ _ _ _ _ E).
    simpl. rewrite app_nil_r. repeat split; [constructor|now left].
  - exists [], []. unfold events, run, main. rewrite (bind_Raise _ _ _ _ _ E).
    simpl. rewrite app_nil_r. repeat split; [constructor|now left].
Qed.

(** X9: when the command given is empty or is not on disk, the run falls
    back to [autopep8]: its only version query is [autopep8 --version], a
    formatter that is run is [autopep8], and the only other program it
    starts is [git]; so the command given, unless it is itself the name
    [autopep8] or [git], is the program of no command line of the run. *)
Theorem missing_command_never_run (h : Host) (args : Args) :
  Py.nonempty (autopep8_command args)
  && os_path_exists h (autopep8_command args) = false ->
  (forall argv,
     In (Run VersionQuery argv) (events h args) ->
     argv = ["autopep8"; "--version"])
  /\ (forall argv,
        In (Run Format argv) (events h args) ->
        exists files,
          argv = ["autopep8"; "--recursive"; "--in-place"; "--jobs=0"] ++ files)
  /\ (forall argv,
        In (Run GitQuery argv) (events h args) -> hd EmptyString argv = "git")
  /\ (autopep8_command args <> "autopep8" ->
      autopep8_command args <> "git" ->
      forall site argv,
        In (Run site argv) (events h args) ->
        hd EmptyString argv <> autopep8_command args).
Proof.
  intros Hg.
  destruct (main_events_shape h args)
    as (r & s2 & lines & tail & E & Hev & Hlines & Htail).
  destruct (detection_trace _ _ _ _ E) as [Hnf Hng].
  destruct (ensure_version_inv _ _ _ _ _ E)
    as (r1 & s1 & prints & Eloop & -> & Hr).
  assert (Hprints : Forall is_print prints).
  { destruct r as [[v|]|c|e]; try (subst prints; constructor).
    destruct Hr as (text & v0 & v1 & v2 & tl & _ & _ & _ & ->).
    now repeat constructor. }
  rewrite (fallback_loop_eq _ _ _ Hg) in Eloop. cbv zeta in Eloop.
  assert (Hs1 : trace s1 = [Run VersionQuery ["autopep8"; "--version"]]
                /\ AUTOPEP8_FORMAT_CMD s1 = "autopep8").
  { destruct (match subprocess_check_output h ["autopep8"; "--version"] with
              | inl e => inl e | inr out => decode_utf8 h out end) as [e|text];
      [destruct e|].
    all: injection Eloop as <- <-.
    all: now split. }
  destruct Hs1 as [Ht Hc]. cbv zeta in Htail. simpl in Htail, Hev.
  rewrite Hc in Htail. rewrite Ht in Hev. simpl in Hev.
  rewrite List.Forall_forall in Hprints, Hlines.
  assert (Hall : forall site argv,
            In (Run site argv) (events h args) ->
            match site with
            | VersionQuery => argv = ["autopep8"; "--version"]
            | GitQuery =>
                argv = git_command (resolved_paths h args) (changed_only args)
            | Format =>
                exists files,
                  argv = ["autopep8"; "--recursive"; "--in-place"; "--jobs=0"]
                         ++ files
            end).
  { intros site argv Hin. rewrite Hev in Hin.
    destruct Hin as [Hin|Hin]; [now injection Hin as <- <-|].
    apply in_app_or in Hin as [Hin|Hin]; [now apply Hprints in Hin|].
    apply in_app_or in Hin as [Hin|Hin]; [now apply Hlines in Hin|].
    destruct Htail as [->|[->|(files & ->)]].
    - destruct Hin.
    - destruct Hin as [Hin|[]]. now injection Hin as <- <-.
    - destruct Hin as [Hin|[Hin|[]]]; injection Hin as <- <-;
        [reflexivity|now exists files]. }
  split; [exact (Hall VersionQuery)|]. split; [exact (Hall Format)|].
  assert (Hgit : forall argv,
            In (Run GitQuery argv) (events h args) ->
            hd EmptyString argv = "git").
  { intros argv Hin. rewrite (Hall GitQuery argv Hin).
    unfold git_command. now destruct (changed_only args). }
  split; [exact Hgit|].
  intros Hne1 Hne2 site argv Hin Heq. destruct site.
  - rewrite (Hall VersionQuery argv Hin) in Heq. simpl in Heq. congruence.
  - rewrite (Hgit argv Hin) in Heq. congruence.
  - destruct (Hall Format argv Hin) as (files & ->). simpl in Heq. congruence.
Qed.

Lemma missing_command_never_run_witness :
  let h := posix_host "autopep8 1.6.0 (pycodestyle: 2.9.1)" sample_listing in
  let args := {| changed_only := false;
                 autopep8_command := "../lib/autopep8"; paths := [] |} in
  (Py.nonempty (autopep8_command args)
   && os_path_exists h (autopep8_command args) = false
   /\ autopep8_command args <> "autopep8"
   /\ autopep8_command args <> "git")
  /\ (forall argv,
        In (Run VersionQuery argv) (events h args) ->
        argv = ["autopep8"; "--version"])
  /\ (forall argv,
        In (Run Format argv) (events h args) ->
        exists files,
          argv = ["autopep8"; "--recursive"; "--in-place"; "--jobs=0"] ++ files)
  /\ (forall argv,
        In (Run GitQuery argv) (events h args) -> hd EmptyString argv = "git")
  /\ (forall site argv,
        In (Run site argv) (events h args) ->
        hd EmptyString argv <> autopep8_command args).
Proof.
  cbv zeta.
  destruct (missing_command_never_run
              (posix_host "autopep8 1.6.0 (pycodestyle: 2.9.1)" sample_listing)
              {| changed_only := false; autopep8_command := "../lib/autopep8";
                 paths := [] |} eq_refl)
    as (Hq & Hf & Hgit & Hnever).
  split; [split; [reflexivity|split; discriminate]|].
  split; [exact Hq|]. split; [exact Hf|]. split; [exact Hgit|].
  apply Hnever; discriminate.
Defined.

(** X10: when the command given is not usable and [autopep8] prints a
    version of fewer than three numbers, such as [1.6], the version is
    parsed but the line that reports it cannot be built: the run ends in an
    [IndexError] that nothing catches, with nothing printed and no version
    compared. *)
Theorem short_version_raises (h : Host) (args : Args) (out text : string)
    (t : list Z) :
  Py.nonempty (autopep8_command args)
  && os_path_exists h (autopep8_command args) = false ->
  subprocess_check_output h ["autopep8"; "--version"] = inr out ->
  decode_utf8 h out = inr text ->
  parse_version text = inr (Some t) ->
  (length t < 3)%nat ->
  run h args
  = (Raise IndexError,
     {| AUTOPEP8_FORMAT_CMD := "autopep8";
        trace := [Run VersionQuery ["autopep8"; "--version"]] |}).
Proof.
  intros Hg Hout Hdec Hp Hlen.
  pose proof (fallback_loop_eq h (autopep8_command args) initial_state Hg)
    as Eloop.
  rewrite Hout, Hdec in Eloop. cbv zeta in Eloop.
  unfold run, main.
  now rewrite (bind_Raise _ _ _ _ _
                 (ensure_version_short _ _ _ _ _ _ Eloop Hp Hlen)).
Qed.

Lemma short_version_raises_witness :
  let h := posix_host "autopep8 1.6 (pycodestyle: 2.9.1)" sample_listing in
  (Py.nonempty (autopep8_command no_arguments)
   && os_path_exists h (autopep8_command no_arguments) = false
   /\ subprocess_check_output h ["autopep8"; "--version"]
      = inr "autopep8 1.6 (pycodestyle: 2.9.1)"
   /\ decode_utf8 h "autopep8 1.6 (pycodestyle: 2.9.1)"
      = inr "autopep8 1.6 (pycodestyle: 2.9.1)"
   /\ parse_version "autopep8 1.6 (pycodestyle: 2.9.1)" = inr (Some [1; 6])
   /\ (length [1; 6] < 3)%nat)
  /\ run h no_arguments
     = (Raise IndexError,
        {| AUTOPEP8_FORMAT_CMD := "autopep8";
           trace := [Run VersionQuery ["autopep8"; "--version"]] |}).
Proof.
  cbv zeta. split; [repeat split; simpl; lia|].
  apply (short_version_raises
           (posix_host "autopep8 1.6 (pycodestyle: 2.9.1)" sample_listing)
           no_arguments "autopep8 1.6 (pycodestyle: 2.9.1)"
           "autopep8 1.6 (pycodestyle: 2.9.1)" [1; 6]);
    try reflexivity. simpl. lia.
Defined.

(** ** The one version that passes in silence *)

Lemma tuple_lt_connex a b :
  Py.tuple_lt a b = false -> Py.tuple_lt b a = false -> a = b.
Proof.
  revert b. induction a as [|x a IH]; intros [|y b]; simpl; try done.
  intros H1 H2.
  apply orb_false_iff in H1 as [H1 H1']. apply orb_false_iff in H2 as [H2 H2'].
  apply Z.ltb_ge in H1, H2. assert (x = y) by lia. subst y.
  rewrite Z.eqb_refl in H1', H2'. simpl in H1', H2'.
  now rewrite (IH _ H1' H2').
Qed.

Lemma quiet_events_not_W h args v s2 :
  autopep8_ensure_version h (autopep8_command args) initial_state
  = (Ret (Some v), s2) ->
  Forall not_W_line (trace s2 ++ announce_events h args).
Proof.
  intros E.
  destruct (ensure_version_inv _ _ _ _ _ E)
    as (r1 & s1 & prints & Eloop & -> & text & v0 & v1 & v2 & tl
        & -> & _ & _ & ->).
  destruct (version_output_loop_inv _ _ _ _ _ _ Eloop)
    as (queries & Hq & Hqs & _).
  simpl in Hq |- *. rewrite Hq. rewrite !Forall_app. repeat split.
  - apply List.Forall_forall. intros e He.
    rewrite List.Forall_forall in Hqs. specialize (Hqs _ He).
    intros rest ->. exact Hqs.
  - constructor; [|constructor]. intros rest H. injection H as H.
    discriminate H.
  - constructor.
    + intros rest H. injection H as H. discriminate H.
    + apply List.Forall_forall. intros e He.
      apply List.in_map_iff in He as (p & <- & _).
      intros rest H. injection H as H. discriminate H.
Qed.

(** X11: with the minimum and the recommended maximum both (1, 6, 0), a
    detected version either ends the run in [sys.exit(1)] or is warned
    about, unless it is exactly (1, 6, 0); (1, 6, 0) itself does neither. *)
Theorem only_exact_version_is_silent (h : Host) (args : Args) (v : list Z) :
  detected h args v ->
  (fst (run h args) = Exit 1
   \/ In (Print ("WARNING: Version of autopep8 is too recent: "
                 +:+ Py.repr_tuple v +:+ " > (1, 6, 0)")) (events h args))
  <-> v <> [1; 6; 0].
Proof.
  intros Hd. destruct (detected_run _ _ _ Hd) as (s1 & E & _). split.
  - intros H ->.
    pose proof (main_version_ok _ _ _ _ E eq_refl) as Hrun.
    rewrite format_stage_eq in Hrun. cbv zeta in Hrun.
    change (warning_events [1; 6; 0]) with (@nil event) in Hrun.
    pose proof (quiet_events_not_W _ _ _ _ E) as Hq.
    unfold events in H. rewrite Hrun in H.
    destruct (fst (source_files_from_git h _ _ initial_state)) as [files|c|e].
    + destruct (List.filter keep_file files) as [|f fs];
        (destruct H as [H|H];
         [simpl in H; try discriminate H;
          destruct (subprocess_check_output h _); discriminate H|]);
        simpl in H; apply in_app_or in H as [H|H];
        try (rewrite List.Forall_forall in Hq; exact (Hq _ H _ eq_refl));
        repeat (destruct H as [H|H]; [discriminate H|]); destruct H.
    + destruct H as [H|H]; [|simpl in H; apply in_app_or in H as [H|H];
        [rewrite List.Forall_forall in Hq; exact (Hq _ H _ eq_refl)|
         repeat (destruct H as [H|H]; [discriminate H|]); destruct H]].
      exfalso. revert Hrun.
      destruct (format_stage_run h args
                  (log s1 (warning_events [1; 6; 0] ++ announce_events h args)))
        as (r & Hst & Hne & _).
      pose proof (main_version_ok _ _ _ _ E eq_refl) as Hrun'.
      rewrite Hst in Hrun'. intros Hrun. rewrite Hrun' in Hrun.
      injection Hrun as -> _. now apply (Hne c).
    + destruct H as [H|H]; [discriminate H|].
      simpl in H. apply in_app_or in H as [H|H];
        [rewrite List.Forall_forall in Hq; exact (Hq _ H _ eq_refl)|].
      repeat (destruct H as [H|H]; [discriminate H|]). destruct H.
  - intros Hne. destruct (Py.tuple_lt v VERSION_MIN) eqn:Hlt.
    + left. now rewrite (main_too_old _ _ _ _ E Hlt).
    + right. destruct (Py.tuple_gt v VERSION_MAX_RECOMMENDED) eqn:Hgt.
      * pose proof (main_version_ok _ _ _ _ E Hlt) as Hrun.
        destruct (format_stage_run h args
                    (log s1 (warning_events v ++ announce_events h args)))
          as (r & Hst & _).
        rewrite Hst in Hrun. unfold events. rewrite Hrun. simpl.
        unfold warning_events at 1. rewrite Hgt.
        apply in_or_app. left. apply in_or_app. right. now left.
      * exfalso. apply Hne. now apply tuple_lt_connex.
Qed.

Lemma only_exact_version_is_silent_witness :
  let h := posix_host "autopep8 1.6.1 (pycodestyle: 2.9.1)" sample_listing in
  detected h no_arguments [1; 6; 1]
  /\ ((fst (run h no_arguments) = Exit 1
       \/ In (Print "WARNING: Version of autopep8 is too recent: (1, 6, 1) > (1, 6, 0)")
             (events h no_arguments))
      <-> [1; 6; 1] <> [1; 6; 0]).
Proof.
  cbv zeta. split; [reflexivity|].
  apply (only_exact_version_is_silent
           (posix_host "autopep8 1.6.1 (pycodestyle: 2.9.1)" sample_listing)
           no_arguments [1; 6; 1]).
  reflexivity.
Defined.

(** ** The command given, when it can be run *)

(** The loop when the command given is on disk and prints its version: one
    query, for that command. *)
Lemma preferred_loop_eq h arg s out text :
  Py.nonempty arg && os_path_exists h arg = true ->
  subprocess_check_output h (command_prefix h arg ++ ["--version"]) = inr out ->
  decode_utf8 h out = inr text ->
  version_output_loop h arg [true; false] s
  = (Ret (Some text),
     {| AUTOPEP8_FORMAT_CMD := arg;
        trace := trace s
                 ++ [Run VersionQuery (command_prefix h arg ++ ["--version"])] |}).
Proof.
  intros Hg Hout Hdec. cbn [version_output_loop]. rewrite Hg. cbn [andb negb].
  cbv zeta.
  change ((if Py.endswith arg ".py" then [sys_executable h; arg] else [arg])
          ++ ["--version"])
    with (command_prefix h arg ++ ["--version"]).
  unfold bind, emit. now rewrite Hout, Hdec.
Qed.

(** X12: when the command given is on disk and answers [--version], it is
    the only candidate queried, [autopep8] is not tried, and a formatter
    that is run is that command (behind the interpreter if it ends in
    [.py]). *)
Theorem given_command_takes_precedence (h : Host) (args : Args)
    (out text : string) :
  let cmd := autopep8_command args in
  Py.nonempty cmd && os_path_exists h cmd = true ->
  subprocess_check_output h (command_prefix h cmd ++ ["--version"]) = inr out ->
  decode_utf8 h out = inr text ->
  (forall argv,
     In (Run VersionQuery argv) (events h args) ->
     argv = command_prefix h cmd ++ ["--version"])
  /\ (forall argv,
        In (Run Format argv) (events h args) ->
        exists files,
          argv = command_prefix h cmd
                 ++ ["--recursive"; "--in-place"; "--jobs=0"] ++ files).
Proof.
  intros cmd Hg Hout Hdec. subst cmd.
  destruct (main_trace_split h args) as (r & s2 & rest & E & Hev & Hnq & Hfmt).
  destruct (detection_trace _ _ _ _ E) as [Hnf _].
  destruct (ensure_version_inv _ _ _ _ _ E)
    as (r1 & s1 & prints & Eloop & -> & Hr).
  assert (Hprints : Forall is_print prints).
  { destruct r as [[v|]|c|e]; try (subst prints; constructor).
    destruct Hr as (txt & v0 & v1 & v2 & tl & _ & _ & _ & ->).
    now repeat constructor. }
  rewrite (preferred_loop_eq _ _ _ _ _ Hg Hout Hdec) in Eloop.
  injection Eloop as <- <-. rewrite Hev. simpl in Hnf |- *. split.
  - intros argv [Hin|Hin]; [now injection Hin|].
    apply in_app_or in Hin as [Hin|Hin].
    + rewrite List.Forall_forall in Hprints. now apply Hprints in Hin.
    + rewrite List.Forall_forall in Hnq. destruct (Hnq _ Hin I).
  - intros argv [Hin|Hin]; [discriminate Hin|].
    apply in_app_or in Hin as [Hin|Hin].
    + exfalso. revert Hin. apply not_format_In. now inversion Hnf.
    + destruct (Hfmt _ Hin) as (files & ->). exists files.
      apply format_command_prefix.
Qed.

Lemma given_command_takes_precedence_witness :
  let h := {| os_sep := "/"; sys_executable := "/usr/bin/python3";
              os_path_exists := fun f => String.eqb f "lib/autopep8.py";
              os_path_isfile := fun _ => false;
              subprocess_check_output := fun argv =>
                match argv with
                | ["/usr/bin/python3"; "lib/autopep8.py"; "--version"] =>
                    inr "autopep8 1.6.0"
                | "git" :: _ => inr sample_listing
                | _ => inr EmptyString
                end;
              decode_utf8 := inr |} in
  let args := {| changed_only := false;
                 autopep8_command := "lib/autopep8.py"; paths := [] |} in
  let cmd := autopep8_command args in
  (Py.nonempty cmd && os_path_exists h cmd = true
   /\ subprocess_check_output h (command_prefix h cmd ++ ["--version"])
      = inr "autopep8 1.6.0"
   /\ decode_utf8 h "autopep8 1.6.0" = inr "autopep8 1.6.0")
  /\ (forall argv,
        In (Run VersionQuery argv) (events h args) ->
        argv = command_prefix h cmd ++ ["--version"])
  /\ (forall argv,
        In (Run Format argv) (events h args) ->
        exists files,
          argv = command_prefix h cmd
                 ++ ["--recursive"; "--in-place"; "--jobs=0"] ++ files).
Proof.
  cbv zeta. split; [repeat split|].
  match goal with
  | |- (forall argv, In _ (events ?h ?args) -> _) /\ _ =>
      apply (given_command_takes_precedence h args
               "autopep8 1.6.0" "autopep8 1.6.0")
  end; reflexivity.
Defined.

(** ** Separators in the resolved paths *)

Lemma replace_free_of new s :
  free_of (Ascii.eqb "/") new = true ->
  free_of (Ascii.eqb "/") (Py.replace "/" new s) = true.
Proof.
  intros Hnew. induction s as [|c s IH]; [reflexivity|]. simpl.
  destruct (Ascii.eqb_spec c "/") as [->|Hc].
  - now rewrite free_of_app, Hnew, IH.
  - rewrite free_of_cons, IH.
    destruct (Ascii.eqb_spec "/" c) as [<-|_]; [done|reflexivity].
Qed.

(** X13: on a host whose path separator holds no [/] (such as [\]), no
    path that [compute_paths] returns holds a [/], whether it comes from
    the arguments or from the default directories. *)
Theorem compute_paths_no_slash (h : Host) (paths : list string)
    (use_default_paths : bool) (f : string) :
  free_of (Ascii.eqb "/") (os_sep h) = true ->
  In f (compute_paths h paths use_default_paths) ->
  free_of (Ascii.eqb "/") f = true.
Proof.
  intros Hsep. unfold compute_paths, normalize_separators.
  destruct (String.eqb_spec (os_sep h) "/") as [Heq|_].
  - rewrite Heq in Hsep. discriminate Hsep.
  - simpl. intros Hin. apply List.in_map_iff in Hin as (g & <- & _).
    now apply replace_free_of.
Qed.

Lemma compute_paths_no_slash_witness :
  free_of (Ascii.eqb "/") (os_sep windows_host) = true
  /\ In "source\blender\a.py"
        (compute_paths windows_host ["x.c"; "source/blender/a.py"] false)
  /\ free_of (Ascii.eqb "/") "source\blender\a.py" = true.
Proof.
  split; [reflexivity|]. split; [simpl; tauto|].
  apply (compute_paths_no_slash windows_host
           ["x.c"; "source/blender/a.py"] false "source\blender\a.py");
    [reflexivity|simpl; tauto].
Defined.
